(** * opencode-checkpoint: checkpoint store and restore resolver

    A shallow embedding of [database.ts] (the SQLite-backed checkpoint
    store) and [restore.ts] (the restore resolver built on the host's
    [session.fork]), with the properties of the design document stated
    and settled against them. *)

From Stdlib Require Import ZArith List String Ascii Bool Lia.
From Stdlib Require Import Sorting.Sorted Sorting.Permutation.
From Stdlib Require Import DecimalString DecimalZ DecimalPos.
Import ListNotations.

Local Open Scope string_scope.
Local Open Scope Z_scope.

(* ================================================================== *)
(** ** JavaScript values that the embedding needs *)

(** Template-literal interpolation of an integer-valued number.  Every
    count handled here is an array length or a SQLite INTEGER, far below
    1e21, where JavaScript prints the plain decimal numeral. *)
Definition show_number (z : Z) : string :=
  NilZero.string_of_int (Z.to_int z).

(** The one-character string holding a double quote. *)
Definition double_quote : string := String (ascii_of_nat 34) EmptyString.

(** [a || null] on an optional string: [undefined] and the empty string
    are both falsy. *)
Definition or_null (a : option string) : option string :=
  match a with
  | Some EmptyString => None
  | Some s => Some s
  | None => None
  end.

(* ================================================================== *)
(** ** database.ts *)

Module Checkpoint.
(** [interface Checkpoint]: one row of the [checkpoints] table.  [id],
    [message_count] and [created_at] are INTEGER columns. *)
Record t : Type := mk {
  id : Z;
  sessionId : string;
  name : string;
  description : option string;
  messageCount : Z;
  gitCommit : option string;
  createdAt : Z;
  metadata : string
}.
End Checkpoint.

Module CheckpointCreate.
(** [interface CheckpointCreate], over the type [J] of metadata
    objects. *)
Record t (J : Type) : Type := mk {
  sessionId : string;
  name : string;
  description : option string;
  messageCount : Z;
  gitCommit : option string;
  metadata : option J
}.
Arguments mk {J}.
Arguments sessionId {J}.
Arguments name {J}.
Arguments description {J}.
Arguments messageCount {J}.
Arguments gitCommit {J}.
Arguments metadata {J}.
End CheckpointCreate.

Module Database.

(** The state behind a [CheckpointDatabase]: the rows of the table in
    rowid order, and the [sqlite_sequence] counter that AUTOINCREMENT
    keeps (the largest rowid ever handed out). *)
Record CheckpointDatabase : Type := mkDb {
  rows : list Checkpoint.t;
  sqlite_sequence : Z
}.

(** [initializeSchema] on a fresh file. *)
Definition empty : CheckpointDatabase := mkDb [] 0.

(** *** SQL fragments *)

(** One insertion step of [ORDER BY created_at DESC].  The new row goes
    in front of the first row that is not newer than it, so rows with
    the same timestamp keep the order they had: the order of the index
    [idx_checkpoints_session (session_id, created_at DESC)], whose
    entries with equal keys are in ascending rowid. *)
Fixpoint insert_desc (r : Checkpoint.t) (l : list Checkpoint.t)
  : list Checkpoint.t :=
  match l with
  | [] => [r]
  | y :: l' =>
      if Checkpoint.createdAt y <=? Checkpoint.createdAt r
      then r :: y :: l'
      else y :: insert_desc r l'
  end.

Fixpoint order_by_created_at_desc (l : list Checkpoint.t)
  : list Checkpoint.t :=
  match l with
  | [] => []
  | r :: l' => insert_desc r (order_by_created_at_desc l')
  end.

(** [LIMIT n]: SQLite puts no upper bound when [n] is negative. *)
Definition sql_limit (n : Z) (l : list Checkpoint.t) : list Checkpoint.t :=
  if n <? 0 then l else firstn (Z.to_nat n) l.

(** *** Queries *)

(** [getCheckpoint]: [SELECT ... WHERE id = ?], first row or null. *)
Definition getCheckpoint (db : CheckpointDatabase) (id : Z)
  : option Checkpoint.t :=
  find (fun r => Checkpoint.id r =? id) (rows db).

(** [listCheckpoints(sessionId, limit = 50)]. *)
Definition listCheckpoints (db : CheckpointDatabase) (sessionId : string)
    (limit : option Z) : list Checkpoint.t :=
  let limit := match limit with Some n => n | None => 50 end in
  sql_limit limit
    (order_by_created_at_desc
       (filter (fun r => Checkpoint.sessionId r =? sessionId)%string
          (rows db))).

(** [findCheckpointByName]: same ordering, [LIMIT 1], first row or
    null.  SQLite compares TEXT bytewise (BINARY collation). *)
Definition findCheckpointByName (db : CheckpointDatabase)
    (sessionId name : string) : option Checkpoint.t :=
  hd_error
    (sql_limit 1
       (order_by_created_at_desc
          (filter (fun r => (Checkpoint.sessionId r =? sessionId)%string
                            && (Checkpoint.name r =? name)%string)
             (rows db)))).

(** [getStats]. *)
Definition getStats (db : CheckpointDatabase) : Z * Z :=
  (Z.of_nat (List.length (rows db)),
   Z.of_nat (List.length (nodup string_dec (map Checkpoint.sessionId (rows db))))).

(** *** Writes *)

Section Writes.
(** Metadata objects and [JSON.stringify] belong to the JavaScript
    runtime; the store only ever serialises them. *)
Context {J : Type}.
Variable JSON_stringify : J -> string.
Variable empty_object : J.

(** The row that [createCheckpoint] inserts at time [now] under
    rowid [id]. *)
Definition new_row (data : CheckpointCreate.t J) (now id : Z)
  : Checkpoint.t :=
  {| Checkpoint.id := id;
     Checkpoint.sessionId := CheckpointCreate.sessionId data;
     Checkpoint.name := CheckpointCreate.name data;
     Checkpoint.description := or_null (CheckpointCreate.description data);
     Checkpoint.messageCount := CheckpointCreate.messageCount data;
     Checkpoint.gitCommit := or_null (CheckpointCreate.gitCommit data);
     Checkpoint.createdAt := now;
     Checkpoint.metadata :=
       JSON_stringify
         (match CheckpointCreate.metadata data with
          | Some m => m
          | None => empty_object
          end) |}.

(** [createCheckpoint(data)] with [Date.now() = now]: returns
    [lastInsertRowid] and the new state. *)
Definition createCheckpoint (data : CheckpointCreate.t J) (now : Z)
    (db : CheckpointDatabase) : Z * CheckpointDatabase :=
  let id := sqlite_sequence db + 1 in
  (id, {| rows := rows db ++ [new_row data now id];
          sqlite_sequence := id |}).

(** [deleteCheckpoint(id)]: [changes > 0] and the new state. *)
Definition deleteCheckpoint (id : Z) (db : CheckpointDatabase)
  : bool * CheckpointDatabase :=
  let gone := filter (fun r => Checkpoint.id r =? id) (rows db) in
  (0 <? Z.of_nat (List.length gone),
   {| rows := filter (fun r => negb (Checkpoint.id r =? id)) (rows db);
      sqlite_sequence := sqlite_sequence db |}).

(** [deleteSessionCheckpoints(sessionId)]: [changes] and the new
    state. *)
Definition deleteSessionCheckpoints (sessionId : string)
    (db : CheckpointDatabase) : Z * CheckpointDatabase :=
  let gone :=
    filter (fun r => Checkpoint.sessionId r =? sessionId)%string (rows db) in
  (Z.of_nat (List.length gone),
   {| rows := filter (fun r => negb (Checkpoint.sessionId r =? sessionId)%string)
                (rows db);
      sqlite_sequence := sqlite_sequence db |}).

(** A state-changing call issued against the store. *)
Inductive Mutation : Type :=
| WCreate (data : CheckpointCreate.t J) (now : Z)
| WDelete (id : Z)
| WDeleteSession (sessionId : string).

Definition apply_write (w : Mutation) (db : CheckpointDatabase)
  : CheckpointDatabase :=
  match w with
  | WCreate data now => snd (createCheckpoint data now db)
  | WDelete id => snd (deleteCheckpoint id db)
  | WDeleteSession s => snd (deleteSessionCheckpoints s db)
  end.

Definition apply_writes (ws : list Mutation) (db : CheckpointDatabase)
  : CheckpointDatabase :=
  fold_left (fun d w => apply_write w d) ws db.

End Writes.

(** What holds of every store reached from [empty]: rowids are
    pairwise distinct and none exceeds [sqlite_sequence]. *)
Definition wf (db : CheckpointDatabase) : Prop :=
  NoDup (map Checkpoint.id (rows db))
  /\ Forall (fun r => Checkpoint.id r <= sqlite_sequence db) (rows db).

End Database.

(* ================================================================== *)
(** ** restore.ts *)

(** JavaScript values other than [Error] instances, as far as the
    embedding needs them: message contents, and what a collaborator may
    throw.  A number is given by the numeral that [String()] prints for
    it (exponent form from 1e21 on), an object by the text that its
    string conversion returns ([[object Object]] for a plain object).
    Values whose conversion to a string itself throws are not part of
    the embedding. *)
Inductive JsValue : Type :=
| JsUndefined
| JsNull
| JsBoolean (b : bool)
| JsNumber (numeral : string)
| JsString (s : string)
| JsObject (text : string).

(** [String(v)]. *)
Definition String_ (v : JsValue) : string :=
  match v with
  | JsUndefined => "undefined"
  | JsNull => "null"
  | JsBoolean true => "true"
  | JsBoolean false => "false"
  | JsNumber numeral => numeral
  | JsString s => s
  | JsObject text => text
  end.

(** What a [throw] or a rejected promise carries. *)
Inductive Thrown : Type :=
| ErrorInstance (message : string)
| NonError (v : JsValue).

(** How an awaited promise settles. *)
Inductive Settled (A : Type) : Type :=
| Resolved (a : A)
| Rejected (e : Thrown).
Arguments Resolved {A}.
Arguments Rejected {A}.

Module Message.
(** An element of the array that [messages] resolves to. *)
Record t : Type := mk { id : string; content : JsValue }.
End Message.

Module SessionForkOptions.
Record t : Type := mk {
  sessionId : string;
  messageId : option string;
  title : option string
}.
End SessionForkOptions.

Module Forked.
(** What [fork] resolves to. *)
Record t : Type := mk { id : string; title : string }.
End Forked.

Module RestoreResult.
Record t : Type := mk {
  success : bool;
  checkpointId : Z;
  checkpointName : string;
  newSessionId : string;
  messageCount : Z;
  error : option string
}.
End RestoreResult.

Module Validation.
(** The result of [canRestore]. *)
Record t : Type := mk { valid : bool; reason : option string }.
End Validation.

Module Restore.

(** [interface OpenCodeSessionClient]. *)
Record OpenCodeSessionClient : Type := mkClient {
  fork : SessionForkOptions.t -> Settled Forked.t;
  messages : string -> Settled (list Message.t)
}.

(** A call made on the session client, with how it settled. *)
Inductive Event : Type :=
| MessagesCall (sessionId : string) (outcome : Settled (list Message.t))
| ForkCall (options : SessionForkOptions.t) (outcome : Settled Forked.t).

(** *** Async computations: a result or a rejection, and the calls made *)

Definition Async (A : Type) : Type := list Event -> Settled A * list Event.

Definition ret {A} (a : A) : Async A := fun tr => (Resolved a, tr).

Definition bind {A B} (m : Async A) (k : A -> Async B) : Async B :=
  fun tr =>
    match m tr with
    | (Resolved a, tr') => k a tr'
    | (Rejected e, tr') => (Rejected e, tr')
    end.

Definition try_catch {A} (body : Async A) (handler : Thrown -> Async A)
  : Async A :=
  fun tr =>
    match body tr with
    | (Resolved a, tr') => (Resolved a, tr')
    | (Rejected e, tr') => handler e tr'
    end.

Definition await_messages (c : OpenCodeSessionClient) (sessionId : string)
  : Async (list Message.t) :=
  fun tr =>
    let o := messages c sessionId in (o, (tr ++ [MessagesCall sessionId o])%list).

Definition await_fork (c : OpenCodeSessionClient)
    (options : SessionForkOptions.t) : Async Forked.t :=
  fun tr => let o := fork c options in (o, (tr ++ [ForkCall options o])%list).

Notation "x <- m ;; k" := (bind m (fun x => k))
  (at level 61, m at next level, right associativity).

(** Runs a computation from the empty trace. *)
Definition run {A} (m : Async A) : Settled A * list Event := m [].

(** [a[i]] on an array of objects: [undefined] outside the bounds. *)
Definition js_index {A} (a : list A) (i : Z) : option A :=
  if i <? 0 then None else nth_error a (Z.to_nat i).

Definition failed (checkpointId : Z) (checkpointName : string)
    (messageCount : Z) (error : string) : RestoreResult.t :=
  {| RestoreResult.success := false;
     RestoreResult.checkpointId := checkpointId;
     RestoreResult.checkpointName := checkpointName;
     RestoreResult.newSessionId := EmptyString;
     RestoreResult.messageCount := messageCount;
     RestoreResult.error := Some error |}.

(** [error instanceof Error ? error.message : String(error)]. *)
Definition error_text (e : Thrown) : string :=
  match e with
  | ErrorInstance message => message
  | NonError v => String_ v
  end.

(** [RestoreManager.restore]. *)
Definition restore (db : Database.CheckpointDatabase)
    (sessionClient : OpenCodeSessionClient)
    (sessionId : string) (checkpointId : Z) : Async RestoreResult.t :=
  match Database.getCheckpoint db checkpointId with
  | None =>
      ret (failed checkpointId "unknown" 0
             ("Checkpoint " ++ show_number checkpointId ++ " not found"))
  | Some checkpoint =>
      if negb (Checkpoint.sessionId checkpoint =? sessionId)%string then
        ret (failed checkpointId (Checkpoint.name checkpoint) 0
               ("Checkpoint belongs to different session ("
                  ++ Checkpoint.sessionId checkpoint ++ ")"))
      else
        try_catch
          (messages <- await_messages sessionClient sessionId ;;
           if Z.of_nat (List.length messages)
              <? Checkpoint.messageCount checkpoint
           then
             ret (failed checkpointId (Checkpoint.name checkpoint)
                    (Z.of_nat (List.length messages))
                    ("Current session has "
                       ++ show_number (Z.of_nat (List.length messages))
                       ++ " messages, checkpoint expects "
                       ++ show_number (Checkpoint.messageCount checkpoint)))
           else
             match js_index messages
                     (Checkpoint.messageCount checkpoint - 1) with
             | None =>
                 ret (failed checkpointId (Checkpoint.name checkpoint) 0
                        ("Could not find message at position "
                           ++ show_number
                                (Checkpoint.messageCount checkpoint)))
             | Some targetMessage =>
                 forked <- await_fork sessionClient
                   {| SessionForkOptions.sessionId := sessionId;
                      SessionForkOptions.messageId :=
                        Some (Message.id targetMessage);
                      SessionForkOptions.title :=
                        Some ("Restored: " ++ Checkpoint.name checkpoint) |} ;;
                 ret {| RestoreResult.success := true;
                        RestoreResult.checkpointId := checkpointId;
                        RestoreResult.checkpointName :=
                          Checkpoint.name checkpoint;
                        RestoreResult.newSessionId := Forked.id forked;
                        RestoreResult.messageCount :=
                          Checkpoint.messageCount checkpoint;
                        RestoreResult.error := None |}
             end)
          (fun error =>
             ret (failed checkpointId (Checkpoint.name checkpoint) 0
                    (error_text error)))
  end.

(** [RestoreManager.restoreByName]. *)
Definition restoreByName (db : Database.CheckpointDatabase)
    (sessionClient : OpenCodeSessionClient)
    (sessionId checkpointName : string) : Async RestoreResult.t :=
  match Database.findCheckpointByName db sessionId checkpointName with
  | None =>
      ret (failed 0 checkpointName 0
             ("No checkpoint named " ++ double_quote ++ checkpointName
                ++ double_quote ++ " found for session"))
  | Some checkpoint =>
      restore db sessionClient sessionId (Checkpoint.id checkpoint)
  end.

(** [RestoreManager.canRestore]. *)
Definition canRestore (db : Database.CheckpointDatabase)
    (sessionClient : OpenCodeSessionClient)
    (sessionId : string) (checkpointId : Z) : Async Validation.t :=
  match Database.getCheckpoint db checkpointId with
  | None => ret (Validation.mk false (Some "Checkpoint not found"))
  | Some checkpoint =>
      if negb (Checkpoint.sessionId checkpoint =? sessionId)%string then
        ret (Validation.mk false
               (Some "Checkpoint belongs to different session"))
      else
        try_catch
          (messages <- await_messages sessionClient sessionId ;;
           if Z.of_nat (List.length messages)
              <? Checkpoint.messageCount checkpoint
           then
             ret (Validation.mk false
                    (Some ("Session has "
                             ++ show_number (Z.of_nat (List.length messages))
                             ++ " messages, checkpoint requires "
                             ++ show_number
                                  (Checkpoint.messageCount checkpoint))))
           else ret (Validation.mk true None))
          (fun error =>
             ret (Validation.mk false
                    (Some (match error with
                           | ErrorInstance message => message
                           | NonError _ => "Unknown error"
                           end))))
  end.

(** *** Reading a trace *)

(** The options of every [fork] call, in order. *)
Fixpoint fork_calls (tr : list Event) : list SessionForkOptions.t :=
  match tr with
  | [] => []
  | ForkCall o _ :: tr' => o :: fork_calls tr'
  | MessagesCall _ _ :: tr' => fork_calls tr'
  end.


End Restore.

(* ================================================================== *)
(** ** index.ts *)

(** Strings are sequences of code units; the embedding has the code
    units below 256. *)

(** The one-character string holding a line feed. *)
Definition line_feed : string := String (ascii_of_nat 10) EmptyString.

(** A decimal digit. *)
Definition is_digit (c : ascii) : bool :=
  (48 <=? nat_of_ascii c)%nat && (nat_of_ascii c <=? 57)%nat.

(** The white space and line terminators that [parseInt] skips, among
    the code units below 256: TAB, LF, VT, FF, CR, SP and NBSP. *)
Definition is_white_space (c : ascii) : bool :=
  let n := nat_of_ascii c in
  ((9 <=? n)%nat && (n <=? 13)%nat) || (n =? 32)%nat || (n =? 160)%nat.

Fixpoint trim_start (s : string) : string :=
  match s with
  | String c s' => if is_white_space c then trim_start s' else s
  | EmptyString => EmptyString
  end.

(** The value of the longest prefix of decimal digits, read after the
    digits already accumulated in [acc]. *)
Fixpoint digits_value (acc : Z) (s : string) : Z :=
  match s with
  | String c s' =>
      if is_digit c
      then digits_value (10 * acc + Z.of_nat (nat_of_ascii c - 48)) s'
      else acc
  | EmptyString => acc
  end.

(** [parseInt(s, 10)], with [None] for [NaN]: leading white space is
    skipped, one sign is read, then the longest run of digits; whatever
    follows is ignored.  The value is the exact integer; JavaScript
    rounds it to a double, which is the same number below 2^53. *)
Definition parseInt10 (s : string) : option Z :=
  let s := trim_start s in
  let signed :=
    match s with
    | String c s' =>
        if Ascii.eqb c "-" then (-1, s')
        else if Ascii.eqb c "+" then (1, s')
        else (1, s)
    | EmptyString => (1, s)
    end in
  match snd signed with
  | String c _ =>
      if is_digit c then Some (fst signed * digits_value 0 (snd signed))
      else None
  | EmptyString => None
  end.

Module Plugin.

(** [getMessageCount]: the number of live messages, 0 when the fetch
    fails. *)
Definition getMessageCount (c : Restore.OpenCodeSessionClient)
    (sessionId : string) : Restore.Async Z :=
  Restore.try_catch
    (Restore.bind (Restore.await_messages c sessionId)
       (fun messages => Restore.ret (Z.of_nat (List.length messages))))
    (fun _ => Restore.ret 0).

(** The [session.deleted] branch of the event hook: a falsy session id
    skips the cleanup. *)
Definition on_session_deleted (sessionId : string)
    (db : Database.CheckpointDatabase) : Database.CheckpointDatabase :=
  match sessionId with
  | EmptyString => db
  | _ => snd (Database.deleteSessionCheckpoints sessionId db)
  end.

Section Create.
Context {J : Type}.
Variable JSON_stringify : J -> string.
Variable empty_object : J.
(** The object literal [{directory, timestamp}]. *)
Variable metadata_object : string -> Z -> J.
Variable directory : string.

(** [checkpoint_create.execute(args, context)], with what
    [getCurrentGitCommit()] returned and the two readings of
    [Date.now()]: the metadata timestamp, then the row's. *)
Definition checkpoint_create (c : Restore.OpenCodeSessionClient)
    (name : string) (description : option string) (sessionID : string)
    (gitCommit : option string) (timestamp now : Z)
    (db : Database.CheckpointDatabase)
  : Restore.Async (string * Database.CheckpointDatabase) :=
  Restore.bind (getMessageCount c sessionID) (fun messageCount =>
    let created :=
      Database.createCheckpoint JSON_stringify empty_object
        {| CheckpointCreate.sessionId := sessionID;
           CheckpointCreate.name := name;
           CheckpointCreate.description := description;
           CheckpointCreate.messageCount := messageCount;
           CheckpointCreate.gitCommit := gitCommit;
           CheckpointCreate.metadata :=
             Some (metadata_object directory timestamp) |}
        now db in
    let response :=
      ("Checkpoint created: " ++ name ++ line_feed
       ++ "  ID: " ++ show_number (fst created) ++ line_feed
       ++ "  Messages: " ++ show_number messageCount ++ line_feed
       ++ match or_null gitCommit with
          | Some g => "  Git commit: " ++ substring 0 8 g ++ line_feed
          | None => EmptyString
          end
       ++ match or_null description with
          | Some d => "  Description: " ++ d ++ line_feed
          | None => EmptyString
          end)%string in
    Restore.ret (response, snd created)).
End Create.

(** The text [checkpoint_restore] answers for a result. *)
Definition restore_response (result : RestoreResult.t) : string :=
  if negb (RestoreResult.success result) then
    ("Restore failed: "
     ++ match RestoreResult.error result with
        | Some e => e
        | None => "undefined"
        end)%string
  else
    ("Session restored to checkpoint: "
     ++ RestoreResult.checkpointName result ++ line_feed ++ line_feed
     ++ "A new session has been created with "
     ++ show_number (RestoreResult.messageCount result)
     ++ " messages." ++ line_feed
     ++ "New session ID: " ++ RestoreResult.newSessionId result
     ++ line_feed ++ line_feed
     ++ "Switch to the new session to continue from the checkpoint."
     ++ line_feed
     ++ "The current session remains unchanged.")%string.

(** [checkpoint_restore.execute(args, context)]: the reference is tried
    as an id first, then as a name. *)
Definition checkpoint_restore (db : Database.CheckpointDatabase)
    (c : Restore.OpenCodeSessionClient)
    (checkpoint : string) (sessionID : string) : Restore.Async string :=
  Restore.bind
    (match parseInt10 checkpoint with
     | Some checkpointId => Restore.restore db c sessionID checkpointId
     | None => Restore.restoreByName db c sessionID checkpoint
     end)
    (fun result => Restore.ret (restore_response result)).

(** [checkpoint_delete.execute(args)]. *)
Definition checkpoint_delete (id : string)
    (db : Database.CheckpointDatabase)
  : string * Database.CheckpointDatabase :=
  match parseInt10 id with
  | None => ("Error: Valid checkpoint ID required.", db)
  | Some checkpointId =>
      let deleted := Database.deleteCheckpoint checkpointId db in
      if fst deleted
      then (("Checkpoint " ++ show_number checkpointId ++ " deleted")%string,
            snd deleted)
      else (("Checkpoint " ++ show_number checkpointId ++ " not found")%string,
            snd deleted)
  end.

End Plugin.

(* ================================================================== *)
(** ** Vocabulary of the statements *)

(** The string begins with a decimal digit. *)
Definition starts_with_digit (s : string) : bool :=
  match s with
  | String c _ => is_digit c
  | EmptyString => false
  end.

(** "[a] is at least as recent as [b]". *)
Definition not_older (a b : Checkpoint.t) : Prop :=
  Checkpoint.createdAt b <= Checkpoint.createdAt a.

(** The fork request that [restore] builds for a target message. *)
Definition fork_request (sessionId : string) (checkpoint : Checkpoint.t)
    (target : Message.t) : SessionForkOptions.t :=
  {| SessionForkOptions.sessionId := sessionId;
     SessionForkOptions.messageId := Some (Message.id target);
     SessionForkOptions.title :=
       Some ("Restored: " ++ Checkpoint.name checkpoint)%string |}.

(** The run of [restore] reaches the [fork] call. *)
Definition reaches_fork (db : Database.CheckpointDatabase)
    (c : Restore.OpenCodeSessionClient) (sessionId : string)
    (checkpointId : Z) : Prop :=
  Restore.fork_calls
    (snd (Restore.run (Restore.restore db c sessionId checkpointId))) <> [].

(** The insufficient-messages case of [restore]: the checkpoint exists,
    belongs to the caller's session, and the live session resolves to
    [n] messages, fewer than the checkpoint records. *)
Definition insufficient_messages (db : Database.CheckpointDatabase)
    (c : Restore.OpenCodeSessionClient) (sessionId : string)
    (checkpointId : Z) (n : Z) : Prop :=
  exists checkpoint msgs,
    Database.getCheckpoint db checkpointId = Some checkpoint
    /\ Checkpoint.sessionId checkpoint = sessionId
    /\ Restore.messages c sessionId = Resolved msgs
    /\ n = Z.of_nat (List.length msgs)
    /\ n < Checkpoint.messageCount checkpoint.

(* ================================================================== *)
(** ** Sample stores and clients *)

Module Sample.

(** A runtime whose metadata objects are all [{}]. *)
Definition stringify (_ : unit) : string := "{}".

Definition create (data : CheckpointCreate.t unit) (now : Z)
    (db : Database.CheckpointDatabase) : Database.CheckpointDatabase :=
  snd (Database.createCheckpoint stringify tt data now db).

Definition checkpoint (sessionId name : string) (messageCount : Z)
  : CheckpointCreate.t unit :=
  CheckpointCreate.mk sessionId name None messageCount None None.

(** Two checkpoints of one session taken within the same millisecond. *)
Definition same_millisecond : Database.CheckpointDatabase :=
  create (checkpoint "s1" "B" 10) 1700000000000
    (create (checkpoint "s1" "A" 5) 1700000000000 Database.empty).

(** A checkpoint taken before the session had any message, one taken
    at ten messages, and one of another session. *)
Definition store : Database.CheckpointDatabase :=
  create (checkpoint "s2" "Other" 100) 1700000000003
    (create (checkpoint "s1" "A" 10) 1700000000002
       (create (checkpoint "s1" "Start" 0) 1700000000001 Database.empty)).


Fixpoint numbered (from : Z) (count : nat) : list Message.t :=
  match count with
  | O => []
  | S count' =>
      Message.mk ("msg-" ++ show_number from) JsNull
        :: numbered (from + 1) count'
  end.

(** A live session of [n] messages [msg-0 .. msg-(n-1)] whose forks
    succeed. *)
Definition client (n : nat) : Restore.OpenCodeSessionClient :=
  Restore.mkClient
    (fun _ => Resolved (Forked.mk "forked-session-123" "Restored"))
    (fun _ => Resolved (numbered 0 n)).



End Sample.

(* ================================================================== *)
(** ** Decimal rendering *)

Lemma to_int_proper (z : Z) :
  Z.to_int z <> Decimal.Pos Decimal.Nil
  /\ Z.to_int z <> Decimal.Neg Decimal.Nil.
Proof.
  destruct z; simpl; split; try discriminate;
    intros [= H]; revert H; apply Unsigned.to_uint_nonnil.
Qed.

(** The rendering of a count determines the count. *)
Lemma show_number_inj (a b : Z) : show_number a = show_number b -> a = b.
Proof.
  unfold show_number. intros H. apply DecimalZ.to_int_inj.
  assert (Some (Z.to_int a) = Some (Z.to_int b)) as [= E]; [|exact E].
  rewrite <- (NilZero.isi (Z.to_int a)), <- (NilZero.isi (Z.to_int b));
    try apply to_int_proper.
  rewrite H. reflexivity.
Qed.

(* ================================================================== *)
(** ** Properties of the store *)

Section StoreFacts.
Import Database.

Lemma insert_desc_In r l x :
  In x (insert_desc r l) <-> x = r \/ In x l.
Proof.
  induction l as [|y l IH]; simpl.
  - intuition congruence.
  - destruct (Checkpoint.createdAt y <=? Checkpoint.createdAt r); simpl.
    + intuition congruence.
    + rewrite IH. intuition congruence.
Qed.

Lemma order_by_In l x :
  In x (order_by_created_at_desc l) <-> In x l.
Proof.
  induction l as [|y l IH]; simpl; [tauto|].
  rewrite insert_desc_In, IH. intuition congruence.
Qed.

(** Ordering only rearranges the rows. *)
Lemma insert_desc_Permutation r l : Permutation (insert_desc r l) (r :: l).
Proof.
  induction l as [|y l IH]; simpl; [reflexivity|].
  destruct (Checkpoint.createdAt y <=? Checkpoint.createdAt r);
    [reflexivity|].
  rewrite IH. apply perm_swap.
Qed.

Lemma order_by_Permutation l : Permutation (order_by_created_at_desc l) l.
Proof.
  induction l as [|y l IH]; simpl; [reflexivity|].
  rewrite insert_desc_Permutation. constructor. exact IH.
Qed.

Lemma insert_desc_sorted r l :
  StronglySorted not_older l ->
  StronglySorted not_older (insert_desc r l).
Proof.
  induction 1 as [|y l Hs IH Hy]; simpl.
  - repeat constructor.
  - destruct (Z.leb_spec (Checkpoint.createdAt y) (Checkpoint.createdAt r))
      as [Hle|Hgt].
    + constructor; [constructor; assumption|].
      constructor; [exact Hle|].
      rewrite Forall_forall in Hy |- *. intros z Hz.
      specialize (Hy z Hz). unfold not_older in *. lia.
    + constructor; [exact IH|].
      rewrite Forall_forall in Hy |- *. intros z Hz.
      apply insert_desc_In in Hz. destruct Hz as [->|Hz].
      * unfold not_older. lia.
      * auto.
Qed.

Lemma order_by_sorted l :
  StronglySorted not_older (order_by_created_at_desc l).
Proof.
  induction l; simpl; [constructor | apply insert_desc_sorted; assumption].
Qed.

Lemma firstn_incl (n : nat) (l : list Checkpoint.t) x :
  In x (firstn n l) -> In x l.
Proof.
  revert l; induction n as [|n IH]; intros [|y l]; simpl; try tauto.
  intros [->|H]; auto.
Qed.

Lemma firstn_sorted (n : nat) (l : list Checkpoint.t) :
  StronglySorted not_older l -> StronglySorted not_older (firstn n l).
Proof.
  revert l; induction n as [|n IH]; intros l Hs; simpl; [constructor|].
  destruct Hs as [|y l Hs Hy]; [constructor|].
  constructor; [apply IH; exact Hs|].
  rewrite Forall_forall in Hy |- *.
  intros z Hz. apply Hy. eapply firstn_incl; eassumption.
Qed.

Lemma sql_limit_In n l x : In x (sql_limit n l) -> In x l.
Proof.
  unfold sql_limit. destruct (n <? 0); [tauto | apply firstn_incl].
Qed.

Lemma sql_limit_sorted n l :
  StronglySorted not_older l -> StronglySorted not_older (sql_limit n l).
Proof.
  unfold sql_limit. destruct (n <? 0); [tauto | apply firstn_sorted].
Qed.

Lemma sql_limit_length n l :
  0 <= n -> Z.of_nat (List.length (sql_limit n l)) <= n.
Proof.
  intros Hn. unfold sql_limit.
  destruct (Z.ltb_spec n 0) as [Hneg|_]; [lia|].
  pose proof (firstn_le_length (Z.to_nat n) l).
  rewrite length_firstn. lia.
Qed.

(** The head of an ordered list is at least as recent as every
    element. *)
Lemma sorted_head_newest (l : list Checkpoint.t) cp :
  StronglySorted not_older l ->
  hd_error l = Some cp ->
  forall r, In r l -> Checkpoint.createdAt r <= Checkpoint.createdAt cp.
Proof.
  intros Hs Hhd r Hr. destruct l as [|y l]; [discriminate|].
  simpl in Hhd. injection Hhd as ->.
  apply StronglySorted_inv in Hs. destruct Hs as [_ Hall].
  destruct Hr as [->|Hr]; [lia|].
  rewrite Forall_forall in Hall. apply Hall. exact Hr.
Qed.

Lemma hd_error_sql_limit_1 l : hd_error (sql_limit 1 l) = hd_error l.
Proof. destruct l; reflexivity. Qed.

(** *** Rowids *)

Lemma NoDup_map_filter (f : Checkpoint.t -> bool) l :
  NoDup (map Checkpoint.id l) -> NoDup (map Checkpoint.id (filter f l)).
Proof.
  induction l as [|y l IH]; simpl; intros Hnd; [constructor|].
  inversion Hnd as [|? ? Hnotin Hnd']; subst.
  destruct (f y); simpl; [|auto].
  constructor; [|auto].
  intros Hin. apply Hnotin.
  apply in_map_iff in Hin. destruct Hin as [z [Hz Hin]].
  apply filter_In in Hin. apply in_map_iff. exists z. tauto.
Qed.

Lemma Forall_filter_keep (P : Checkpoint.t -> Prop) f l :
  Forall P l -> Forall P (filter f l).
Proof.
  rewrite !Forall_forall. intros H x Hx. apply filter_In in Hx. apply H, Hx.
Qed.

Lemma wf_empty : wf empty.
Proof. split; constructor. Qed.

(** With distinct rowids, a row of the table is what a lookup of its
    id returns. *)
Lemma getCheckpoint_In db r :
  NoDup (map Checkpoint.id (rows db)) ->
  In r (rows db) ->
  getCheckpoint db (Checkpoint.id r) = Some r.
Proof.
  unfold getCheckpoint. generalize (rows db) as l.
  induction l as [|y l IH]; simpl; intros Hnd Hin; [tauto|].
  inversion Hnd as [|? ? Hnotin Hnd']; subst.
  destruct (Z.eqb_spec (Checkpoint.id y) (Checkpoint.id r)) as [Heq|Hne].
  - destruct Hin as [->|Hin]; [reflexivity|].
    exfalso. apply Hnotin. rewrite Heq. apply in_map. exact Hin.
  - destruct Hin as [->|Hin]; [congruence | auto].
Qed.

Lemma getCheckpoint_Some db i r :
  getCheckpoint db i = Some r -> In r (rows db) /\ Checkpoint.id r = i.
Proof.
  unfold getCheckpoint. intros H. apply find_some in H.
  destruct H as [Hin Heq]. apply Z.eqb_eq in Heq. tauto.
Qed.

Section WithJson.
Context {J : Type}.
Variable JSON_stringify : J -> string.
Variable empty_object : J.

Lemma wf_apply_write (w : Mutation) db :
  wf db -> wf (apply_write JSON_stringify empty_object w db).
Proof.
  intros [Hnd Hle]. destruct w as [data now|i|s]; simpl.
  - split; simpl.
    + rewrite map_app. simpl.
      assert (Hfresh : ~ In (sqlite_sequence db + 1)
                           (map Checkpoint.id (rows db))).
      { intros Hin. apply in_map_iff in Hin.
        destruct Hin as [z [Hz Hin]].
        rewrite Forall_forall in Hle. specialize (Hle z Hin). lia. }
      clear Hle. induction (rows db) as [|y l IH]; simpl.
      * constructor; [simpl; tauto | constructor].
      * inversion Hnd as [|? ? Hnotin Hnd']; subst.
        constructor.
        -- rewrite in_app_iff. simpl. intros [H|[H|[]]].
           ++ tauto.
           ++ apply Hfresh. left. symmetry. exact H.
        -- apply IH; [exact Hnd'|]. intros H. apply Hfresh. right. exact H.
    + apply Forall_app. split.
      * eapply Forall_impl; [|exact Hle]. simpl. intros; lia.
      * repeat constructor. simpl. lia.
  - split; simpl; [apply NoDup_map_filter | apply Forall_filter_keep];
      assumption.
  - split; simpl; [apply NoDup_map_filter | apply Forall_filter_keep];
      assumption.
Qed.


End WithJson.

End StoreFacts.

(* ================================================================== *)
(** ** The store: listing, name resolution, lookup after creation *)

(** C6, as the code has it.  For a non-negative limit (50 when omitted),
    [listCheckpoints] returns only rows of the table that belong to the
    given session, at most [limit] of them, non-increasing by
    [createdAt].  The query has no second sort key: nothing orders rows
    of equal [createdAt] by id. *)
Theorem listCheckpoints_session_limit_order
    (db : Database.CheckpointDatabase) (sessionId : string)
    (limit : option Z) :
  0 <= match limit with Some n => n | None => 50 end ->
  let result := Database.listCheckpoints db sessionId limit in
  Forall (fun r => In r (Database.rows db)
                   /\ Checkpoint.sessionId r = sessionId) result
  /\ Z.of_nat (List.length result)
       <= match limit with Some n => n | None => 50 end
  /\ StronglySorted not_older result.
Proof.
  intros Hlimit result. subst result. unfold Database.listCheckpoints.
  repeat split.
  - apply Forall_forall. intros r Hr.
    apply sql_limit_In, order_by_In, filter_In in Hr.
    destruct Hr as [Hin Hs]. apply String.eqb_eq in Hs. tauto.
  - apply sql_limit_length. exact Hlimit.
  - apply sql_limit_sorted, order_by_sorted.
Qed.

Lemma listCheckpoints_session_limit_order_witness :
  let result := Database.listCheckpoints Sample.store "s1" (Some 1) in
  Forall (fun r => In r (Database.rows Sample.store)
                   /\ Checkpoint.sessionId r = "s1") result
  /\ Z.of_nat (List.length result) <= 1
  /\ StronglySorted not_older result.
Proof.
  apply (listCheckpoints_session_limit_order Sample.store "s1" (Some 1)).
  simpl. lia.
Defined.

(** C6 as stated fails: two checkpoints of one session created in the
    same millisecond are listed oldest id first. *)
Lemma listCheckpoints_equal_timestamps_ascending_id :
  exists a b,
    Database.listCheckpoints Sample.same_millisecond "s1" None = [a; b]
    /\ Checkpoint.createdAt a = Checkpoint.createdAt b
    /\ Checkpoint.id a = 1 /\ Checkpoint.id b = 2
    /\ ~ (Checkpoint.id b <= Checkpoint.id a).
Proof.
  do 2 eexists. split; [vm_compute; reflexivity|].
  simpl. repeat split; lia.
Qed.

(** C7.  [findCheckpointByName] returns a row of the session whose name
    is exactly the requested one and whose [createdAt] is the largest
    among such rows; it returns null exactly when the session has no row
    with that very name. *)
Theorem findCheckpointByName_most_recent
    (db : Database.CheckpointDatabase) (sessionId name : string) :
  match Database.findCheckpointByName db sessionId name with
  | Some cp =>
      In cp (Database.rows db)
      /\ Checkpoint.sessionId cp = sessionId
      /\ Checkpoint.name cp = name
      /\ forall r, In r (Database.rows db) ->
                   Checkpoint.sessionId r = sessionId ->
                   Checkpoint.name r = name ->
                   Checkpoint.createdAt r <= Checkpoint.createdAt cp
  | None =>
      forall r, In r (Database.rows db) ->
                Checkpoint.sessionId r = sessionId ->
                Checkpoint.name r <> name
  end.
Proof.
  unfold Database.findCheckpointByName. rewrite hd_error_sql_limit_1.
  set (matching := filter _ (Database.rows db)).
  assert (Hmatch : forall r, In r matching <->
            In r (Database.rows db) /\ Checkpoint.sessionId r = sessionId
            /\ Checkpoint.name r = name).
  { intros r. unfold matching. rewrite filter_In, andb_true_iff.
    rewrite !String.eqb_eq. tauto. }
  destruct (hd_error (Database.order_by_created_at_desc matching))
    as [cp|] eqn:Hhd.
  - assert (Hcp : In cp matching).
    { apply order_by_In.
      destruct (Database.order_by_created_at_desc matching); [discriminate|].
      simpl in Hhd. injection Hhd as ->. left. reflexivity. }
    apply Hmatch in Hcp. destruct Hcp as [Hin [Hs Hn]].
    repeat split; try assumption.
    intros r Hr Hrs Hrn.
    apply (sorted_head_newest _ cp (order_by_sorted matching) Hhd).
    apply order_by_In, Hmatch. tauto.
  - intros r Hr Hrs Hrn.
    assert (Hin : In r (Database.order_by_created_at_desc matching)).
    { apply order_by_In, Hmatch. tauto. }
    destruct (Database.order_by_created_at_desc matching);
      [contradiction | discriminate].
Qed.

(** The comparison distinguishes letter case. *)
Example findCheckpointByName_case_sensitive :
  Database.findCheckpointByName Sample.store "s1" "start" = None
  /\ option_map Checkpoint.id
       (Database.findCheckpointByName Sample.store "s1" "Start") = Some 1.
Proof. split; reflexivity. Qed.




(* ================================================================== *)
(** ** The resolver *)

Section ResolverFacts.
Import Restore.

Variable db : Database.CheckpointDatabase.
Variable sessionClient : OpenCodeSessionClient.
Variable sessionId : string.
Variable checkpointId : Z.

Lemma js_index_inside {A} (a : list A) (k : Z) :
  1 <= k <= Z.of_nat (List.length a) ->
  exists x, js_index a (k - 1) = Some x
            /\ nth_error a (Z.to_nat (k - 1)) = Some x.
Proof.
  intros Hk. unfold js_index.
  destruct (Z.ltb_spec (k - 1) 0) as [Hneg|_]; [lia|].
  destruct (nth_error a (Z.to_nat (k - 1))) as [x|] eqn:Hnth.
  - exists x. split; reflexivity.
  - apply nth_error_None in Hnth. lia.
Qed.


Lemma restore_not_found :
  Database.getCheckpoint db checkpointId = None ->
  run (restore db sessionClient sessionId checkpointId)
  = (Resolved (failed checkpointId "unknown" 0
                 ("Checkpoint " ++ show_number checkpointId
                    ++ " not found")%string), []).
Proof. intros H. unfold run, restore. rewrite H. reflexivity. Qed.

Lemma restore_foreign checkpoint :
  Database.getCheckpoint db checkpointId = Some checkpoint ->
  Checkpoint.sessionId checkpoint <> sessionId ->
  run (restore db sessionClient sessionId checkpointId)
  = (Resolved (failed checkpointId (Checkpoint.name checkpoint) 0
                 ("Checkpoint belongs to different session ("
                    ++ Checkpoint.sessionId checkpoint ++ ")")%string), []).
Proof.
  intros Hget Hne. unfold run, restore. rewrite Hget.
  apply String.eqb_neq in Hne. rewrite Hne. reflexivity.
Qed.

Lemma restore_fetch_rejected checkpoint e :
  Database.getCheckpoint db checkpointId = Some checkpoint ->
  Checkpoint.sessionId checkpoint = sessionId ->
  messages sessionClient sessionId = Rejected e ->
  run (restore db sessionClient sessionId checkpointId)
  = (Resolved (failed checkpointId (Checkpoint.name checkpoint) 0
                 (error_text e)),
     [MessagesCall sessionId (Rejected e)]).
Proof.
  intros Hget Hown Hfetch. unfold run, restore. rewrite Hget.
  apply String.eqb_eq in Hown. rewrite Hown. simpl.
  unfold try_catch, bind, await_messages. rewrite Hfetch. reflexivity.
Qed.

(** The three ways on once the messages are there. *)
Lemma restore_fetched checkpoint msgs :
  Database.getCheckpoint db checkpointId = Some checkpoint ->
  Checkpoint.sessionId checkpoint = sessionId ->
  messages sessionClient sessionId = Resolved msgs ->
  run (restore db sessionClient sessionId checkpointId)
  = if Z.of_nat (List.length msgs) <? Checkpoint.messageCount checkpoint
    then
      (Resolved
         (failed checkpointId (Checkpoint.name checkpoint)
            (Z.of_nat (List.length msgs))
            ("Current session has "
               ++ show_number (Z.of_nat (List.length msgs))
               ++ " messages, checkpoint expects "
               ++ show_number (Checkpoint.messageCount checkpoint))%string),
       [MessagesCall sessionId (Resolved msgs)])
    else
      match js_index msgs (Checkpoint.messageCount checkpoint - 1) with
      | None =>
          (Resolved
             (failed checkpointId (Checkpoint.name checkpoint) 0
                ("Could not find message at position "
                   ++ show_number (Checkpoint.messageCount checkpoint))%string),
           [MessagesCall sessionId (Resolved msgs)])
      | Some target =>
          (match fork sessionClient (fork_request sessionId checkpoint target) with
           | Resolved forked =>
               Resolved
                 {| RestoreResult.success := true;
                    RestoreResult.checkpointId := checkpointId;
                    RestoreResult.checkpointName := Checkpoint.name checkpoint;
                    RestoreResult.newSessionId := Forked.id forked;
                    RestoreResult.messageCount :=
                      Checkpoint.messageCount checkpoint;
                    RestoreResult.error := None |}
           | Rejected e =>
               Resolved (failed checkpointId (Checkpoint.name checkpoint) 0
                           (error_text e))
           end,
           [MessagesCall sessionId (Resolved msgs);
            ForkCall (fork_request sessionId checkpoint target)
              (fork sessionClient (fork_request sessionId checkpoint target))])
      end.
Proof.
  intros Hget Hown Hfetch. unfold run, restore. rewrite Hget.
  apply String.eqb_eq in Hown. rewrite Hown. simpl.
  unfold try_catch, bind, await_messages. rewrite Hfetch. simpl.
  destruct (Z.of_nat (List.length msgs) <? Checkpoint.messageCount checkpoint);
    [reflexivity|].
  destruct (js_index msgs (Checkpoint.messageCount checkpoint - 1))
    as [target|]; [|reflexivity].
  unfold await_fork, fork_request. simpl.
  destruct (fork sessionClient _); reflexivity.
Qed.


(** The run of [canRestore] once the messages are there. *)
Lemma canRestore_fetched checkpoint msgs :
  Database.getCheckpoint db checkpointId = Some checkpoint ->
  Checkpoint.sessionId checkpoint = sessionId ->
  messages sessionClient sessionId = Resolved msgs ->
  fst (run (canRestore db sessionClient sessionId checkpointId))
  = Resolved
      (if Z.of_nat (List.length msgs) <? Checkpoint.messageCount checkpoint
       then Validation.mk false
              (Some ("Session has "
                       ++ show_number (Z.of_nat (List.length msgs))
                       ++ " messages, checkpoint requires "
                       ++ show_number (Checkpoint.messageCount checkpoint))%string)
       else Validation.mk true None).
Proof.
  intros Hget Hown Hfetch. unfold run, canRestore. rewrite Hget.
  apply String.eqb_eq in Hown. rewrite Hown. simpl.
  unfold try_catch, bind, await_messages. rewrite Hfetch. simpl.
  destruct (_ <? _); reflexivity.
Qed.

End ResolverFacts.

(** C1.  For a checkpoint of the caller's session recording [k >= 1]
    messages and a live sequence of at least [k] messages, [restore]
    calls [fork] exactly once, with the id of the message at 0-based
    index [k - 1] (and the caller's session and the title
    "Restored: <name>"); when that call resolves, the result is
    [{success: true, checkpointId, checkpointName: checkpoint.name,
    newSessionId: forked.id, messageCount: k}]. *)
Theorem restore_forks_at_recorded_position
    (db : Database.CheckpointDatabase)
    (sessionClient : Restore.OpenCodeSessionClient)
    (sessionId : string) (checkpointId : Z)
    (checkpoint : Checkpoint.t) (msgs : list Message.t) :
  Database.getCheckpoint db checkpointId = Some checkpoint ->
  Checkpoint.sessionId checkpoint = sessionId ->
  1 <= Checkpoint.messageCount checkpoint ->
  Restore.messages sessionClient sessionId = Resolved msgs ->
  Checkpoint.messageCount checkpoint <= Z.of_nat (List.length msgs) ->
  exists target,
    nth_error msgs (Z.to_nat (Checkpoint.messageCount checkpoint - 1))
      = Some target
    /\ Restore.fork_calls
         (snd (Restore.run
                 (Restore.restore db sessionClient sessionId checkpointId)))
       = [ {| SessionForkOptions.sessionId := sessionId;
              SessionForkOptions.messageId := Some (Message.id target);
              SessionForkOptions.title :=
                Some ("Restored: " ++ Checkpoint.name checkpoint)%string |} ]
    /\ forall forked,
         Restore.fork sessionClient (fork_request sessionId checkpoint target)
           = Resolved forked ->
         fst (Restore.run
                (Restore.restore db sessionClient sessionId checkpointId))
         = Resolved
             {| RestoreResult.success := true;
                RestoreResult.checkpointId := checkpointId;
                RestoreResult.checkpointName := Checkpoint.name checkpoint;
                RestoreResult.newSessionId := Forked.id forked;
                RestoreResult.messageCount :=
                  Checkpoint.messageCount checkpoint;
                RestoreResult.error := None |}.
Proof.
  intros Hget Hown Hk Hfetch Hn.
  destruct (js_index_inside msgs (Checkpoint.messageCount checkpoint))
    as [target [Hidx Hnth]]; [lia|].
  exists target. split; [exact Hnth|].
  rewrite (restore_fetched db sessionClient sessionId checkpointId
             checkpoint msgs Hget Hown Hfetch).
  destruct (Z.ltb_spec (Z.of_nat (List.length msgs))
              (Checkpoint.messageCount checkpoint)) as [Hlt|_]; [lia|].
  rewrite Hidx. simpl. split; [reflexivity|].
  intros forked Hfork. rewrite Hfork. reflexivity.
Qed.

Lemma restore_forks_at_recorded_position_witness :
  exists target,
    nth_error (Sample.numbered 0 20) 9 = Some target
    /\ Message.id target = "msg-9"
    /\ Restore.fork_calls
         (snd (Restore.run (Restore.restore Sample.store (Sample.client 20)
                              "s1" 2)))
       = [ SessionForkOptions.mk "s1" (Some "msg-9") (Some "Restored: A") ]
    /\ option_map RestoreResult.messageCount
         (match fst (Restore.run (Restore.restore Sample.store
                                    (Sample.client 20) "s1" 2)) with
          | Resolved r => Some r
          | Rejected _ => None
          end) = Some 10.
Proof.
  destruct (restore_forks_at_recorded_position Sample.store (Sample.client 20)
              "s1" 2
              (Checkpoint.mk 2 "s1" "A" None 10 None 1700000000002 "{}")
              (Sample.numbered 0 20))
    as [target [Hnth [Hcalls Hres]]];
    try reflexivity; try (simpl; lia).
  exists target. split; [exact Hnth|].
  assert (Hid : Message.id target = "msg-9").
  { vm_compute in Hnth. injection Hnth as <-. reflexivity. }
  split; [exact Hid|]. split.
  - rewrite Hcalls, Hid. reflexivity.
  - rewrite (Hres (Forked.mk "forked-session-123" "Restored") eq_refl).
    reflexivity.
Defined.

(** C2, as the code has it.  For a checkpoint of the caller's session
    recording 0 messages, once the live messages are fetched, [restore]
    passes the count comparison, finds no message at index -1, and
    returns the failed result "Could not find message at position 0"
    with [messageCount] 0; the only collaborator call is the message
    fetch, so [fork] is not called. *)
Theorem restore_zero_count_has_no_boundary
    (db : Database.CheckpointDatabase)
    (sessionClient : Restore.OpenCodeSessionClient)
    (sessionId : string) (checkpointId : Z)
    (checkpoint : Checkpoint.t) (msgs : list Message.t) :
  Database.getCheckpoint db checkpointId = Some checkpoint ->
  Checkpoint.sessionId checkpoint = sessionId ->
  Checkpoint.messageCount checkpoint = 0 ->
  Restore.messages sessionClient sessionId = Resolved msgs ->
  Restore.run (Restore.restore db sessionClient sessionId checkpointId)
  = (Resolved (Restore.failed checkpointId (Checkpoint.name checkpoint) 0
                 "Could not find message at position 0"),
     [Restore.MessagesCall sessionId (Resolved msgs)]).
Proof.
  intros Hget Hown Hk Hfetch.
  rewrite (restore_fetched db sessionClient sessionId checkpointId
             checkpoint msgs Hget Hown Hfetch).
  rewrite Hk.
  destruct (Z.ltb_spec (Z.of_nat (List.length msgs)) 0) as [Hlt|_]; [lia|].
  change (0 - 1) with (-1). reflexivity.
Qed.

Lemma restore_zero_count_has_no_boundary_witness :
  Restore.run (Restore.restore Sample.store (Sample.client 3) "s1" 1)
  = (Resolved (Restore.failed 1 "Start" 0
                 "Could not find message at position 0"),
     [Restore.MessagesCall "s1" (Resolved (Sample.numbered 0 3))]).
Proof.
  apply (restore_zero_count_has_no_boundary Sample.store (Sample.client 3)
           "s1" 1
           (Checkpoint.mk 1 "s1" "Start" None 0 None 1700000000001 "{}")
           (Sample.numbered 0 3)); reflexivity.
Defined.

(** C2 as stated fails: with a checkpoint at count 0 and three live
    messages, [restore] fails and makes no [fork] call, so the first
    message is not used as a boundary. *)
Lemma restore_zero_count_does_not_fork :
  option_map Checkpoint.messageCount
    (Database.getCheckpoint Sample.store 1) = Some 0
  /\ option_map Checkpoint.sessionId
       (Database.getCheckpoint Sample.store 1) = Some "s1"
  /\ Restore.messages (Sample.client 3) "s1"
     = Resolved [Message.mk "msg-0" JsNull; Message.mk "msg-1" JsNull;
                 Message.mk "msg-2" JsNull]
  /\ Restore.fork_calls
       (snd (Restore.run (Restore.restore Sample.store (Sample.client 3)
                            "s1" 1))) = []
  /\ fst (Restore.run (Restore.restore Sample.store (Sample.client 3) "s1" 1))
     = Resolved (Restore.failed 1 "Start" 0
                   "Could not find message at position 0").
Proof. repeat split; reflexivity. Qed.

(** C3 at the input where the two operations part.  For the checkpoint
    at count 0 of session "s1" and a live session of three messages,
    [canRestore] answers [valid: true] while [restore], on the same
    store, session, checkpoint and messages, is stopped by its
    boundary-message check and never reaches [fork]. *)
Theorem canRestore_accepts_what_restore_rejects :
  fst (Restore.run (Restore.canRestore Sample.store (Sample.client 3) "s1" 1))
  = Resolved (Validation.mk true None)
  /\ fst (Restore.run (Restore.restore Sample.store (Sample.client 3) "s1" 1))
     = Resolved (Restore.failed 1 "Start" 0
                   "Could not find message at position 0")
  /\ ~ reaches_fork Sample.store (Sample.client 3) "s1" 1.
Proof.
  split; [reflexivity|]. split; [reflexivity|].
  unfold reaches_fork. intros H. apply H. reflexivity.
Qed.

(** Away from that input the two agree: when the checkpoint, if there is
    one, records at least one message, [canRestore] answers
    [valid: true] exactly when [restore] reaches [fork]. *)
Lemma canRestore_agrees_with_restore_from_one
    (db : Database.CheckpointDatabase)
    (sessionClient : Restore.OpenCodeSessionClient)
    (sessionId : string) (checkpointId : Z) :
  (forall cp, Database.getCheckpoint db checkpointId = Some cp ->
              1 <= Checkpoint.messageCount cp) ->
  (exists v,
     fst (Restore.run
            (Restore.canRestore db sessionClient sessionId checkpointId))
       = Resolved v /\ Validation.valid v = true)
  <-> reaches_fork db sessionClient sessionId checkpointId.
Proof.
  intros Hpos. unfold reaches_fork.
  destruct (Database.getCheckpoint db checkpointId) as [cp|] eqn:Hget.
  - specialize (Hpos cp eq_refl).
    destruct (string_dec (Checkpoint.sessionId cp) sessionId) as [Hown|Hne].
    + destruct (Restore.messages sessionClient sessionId) as [msgs|e] eqn:Hf.
      * rewrite (canRestore_fetched db sessionClient sessionId checkpointId
                   cp msgs Hget Hown Hf).
        rewrite (restore_fetched db sessionClient sessionId checkpointId
                   cp msgs Hget Hown Hf).
        destruct (Z.ltb_spec (Z.of_nat (List.length msgs))
                    (Checkpoint.messageCount cp)) as [Hlt|Hge].
        -- simpl. split.
           ++ intros [v [Hv Hvalid]]. injection Hv as <-. discriminate.
           ++ intros H. exfalso. apply H. reflexivity.
        -- destruct (js_index_inside msgs (Checkpoint.messageCount cp))
             as [target [Hidx _]]; [lia|].
           rewrite Hidx. simpl. split.
           ++ intros _. discriminate.
           ++ intros _. eexists. split; reflexivity.
      * rewrite (restore_fetch_rejected db sessionClient sessionId
                   checkpointId cp e Hget Hown Hf).
        unfold Restore.run, Restore.canRestore. rewrite Hget.
        apply String.eqb_eq in Hown. rewrite Hown. simpl.
        unfold Restore.try_catch, Restore.bind, Restore.await_messages.
        rewrite Hf. simpl. split.
        -- intros [v [Hv Hvalid]]. injection Hv as <-. discriminate.
        -- intros H. exfalso. apply H. reflexivity.
    + rewrite (restore_foreign db sessionClient sessionId checkpointId
                 cp Hget Hne).
      unfold Restore.run, Restore.canRestore. rewrite Hget.
      apply String.eqb_neq in Hne. rewrite Hne. simpl. split.
      * intros [v [Hv Hvalid]]. injection Hv as <-. discriminate.
      * intros H. exfalso. apply H. reflexivity.
  - rewrite (restore_not_found db sessionClient sessionId checkpointId Hget).
    unfold Restore.run, Restore.canRestore. rewrite Hget. simpl. split.
    + intros [v [Hv Hvalid]]. injection Hv as <-. discriminate.
    + intros H. exfalso. apply H. reflexivity.
Qed.

(** C4.  For a checkpoint of the caller's session recording [k]
    messages and a live sequence of [n < k] messages, [restore] returns
    the failed result whose error reads "Current session has n
    messages, checkpoint expects k"; the only collaborator call is the
    message fetch, so [fork] is not called. *)
Theorem restore_rejects_drift
    (db : Database.CheckpointDatabase)
    (sessionClient : Restore.OpenCodeSessionClient)
    (sessionId : string) (checkpointId : Z)
    (checkpoint : Checkpoint.t) (msgs : list Message.t) :
  Database.getCheckpoint db checkpointId = Some checkpoint ->
  Checkpoint.sessionId checkpoint = sessionId ->
  Restore.messages sessionClient sessionId = Resolved msgs ->
  Z.of_nat (List.length msgs) < Checkpoint.messageCount checkpoint ->
  let run := Restore.run
               (Restore.restore db sessionClient sessionId checkpointId) in
  (exists r,
     fst run = Resolved r
     /\ RestoreResult.success r = false
     /\ RestoreResult.error r
        = Some ("Current session has "
                  ++ show_number (Z.of_nat (List.length msgs))
                  ++ " messages, checkpoint expects "
                  ++ show_number (Checkpoint.messageCount checkpoint))%string)
  /\ Restore.fork_calls (snd run) = []
  /\ snd run = [Restore.MessagesCall sessionId (Resolved msgs)].
Proof.
  intros Hget Hown Hfetch Hlt run. subst run.
  rewrite (restore_fetched db sessionClient sessionId checkpointId
             checkpoint msgs Hget Hown Hfetch).
  apply Z.ltb_lt in Hlt. rewrite Hlt. simpl.
  split; [|split; reflexivity].
  eexists. split; [reflexivity|]. split; reflexivity.
Qed.

Lemma restore_rejects_drift_witness :
  (exists r,
     fst (Restore.run (Restore.restore Sample.store (Sample.client 50)
                         "s2" 3)) = Resolved r
     /\ RestoreResult.success r = false
     /\ RestoreResult.error r
        = Some "Current session has 50 messages, checkpoint expects 100")
  /\ Restore.fork_calls
       (snd (Restore.run (Restore.restore Sample.store (Sample.client 50)
                            "s2" 3))) = [].
Proof.
  destruct (restore_rejects_drift Sample.store (Sample.client 50) "s2" 3
              (Checkpoint.mk 3 "s2" "Other" None 100 None 1700000000003 "{}")
              (Sample.numbered 0 50))
    as [[r [Hr [Hs He]]] [Hforks _]];
    try reflexivity.
  split; [|exact Hforks].
  exists r. split; [exact Hr|]. split; [exact Hs|]. exact He.
Defined.

(** C5.  For a checkpoint whose stored [sessionId] differs from the one
    the caller passes, [restore] returns the failed result "Checkpoint
    belongs to different session (<stored sessionId>)" and makes no
    collaborator call at all: neither the message fetch nor [fork]. *)
Theorem restore_rejects_foreign_checkpoint
    (db : Database.CheckpointDatabase)
    (sessionClient : Restore.OpenCodeSessionClient)
    (sessionId : string) (checkpointId : Z) (checkpoint : Checkpoint.t) :
  Database.getCheckpoint db checkpointId = Some checkpoint ->
  Checkpoint.sessionId checkpoint <> sessionId ->
  Restore.run (Restore.restore db sessionClient sessionId checkpointId)
  = (Resolved
       {| RestoreResult.success := false;
          RestoreResult.checkpointId := checkpointId;
          RestoreResult.checkpointName := Checkpoint.name checkpoint;
          RestoreResult.newSessionId := EmptyString;
          RestoreResult.messageCount := 0;
          RestoreResult.error :=
            Some ("Checkpoint belongs to different session ("
                    ++ Checkpoint.sessionId checkpoint ++ ")")%string |},
     []).
Proof.
  intros Hget Hne.
  apply (restore_foreign db sessionClient sessionId checkpointId
           checkpoint Hget Hne).
Qed.

Lemma restore_rejects_foreign_checkpoint_witness :
  Restore.run (Restore.restore Sample.store (Sample.client 200) "s1" 3)
  = (Resolved (Restore.failed 3 "Other" 0
                 "Checkpoint belongs to different session (s2)"), []).
Proof.
  apply (restore_rejects_foreign_checkpoint Sample.store (Sample.client 200)
           "s1" 3
           (Checkpoint.mk 3 "s2" "Other" None 100 None 1700000000003 "{}")).
  - reflexivity.
  - simpl. discriminate.
Defined.



(** How a failed [restore] fills [newSessionId] and [messageCount]. *)
Lemma restore_failed_fields
    (db : Database.CheckpointDatabase)
    (sessionClient : Restore.OpenCodeSessionClient)
    (sessionId : string) (checkpointId : Z) (r : RestoreResult.t) :
  fst (Restore.run (Restore.restore db sessionClient sessionId checkpointId))
    = Resolved r ->
  RestoreResult.success r = false ->
  RestoreResult.newSessionId r = EmptyString
  /\ ((exists n, insufficient_messages db sessionClient sessionId
                   checkpointId n
                 /\ RestoreResult.messageCount r = n)
      \/ ((forall n, ~ insufficient_messages db sessionClient sessionId
                         checkpointId n)
          /\ RestoreResult.messageCount r = 0)).
Proof.
  unfold insufficient_messages.
  destruct (Database.getCheckpoint db checkpointId) as [cp|] eqn:Hget.
  - destruct (string_dec (Checkpoint.sessionId cp) sessionId) as [Hown|Hne].
    + destruct (Restore.messages sessionClient sessionId) as [msgs|e] eqn:Hf.
      * rewrite (restore_fetched db sessionClient sessionId checkpointId
                   cp msgs Hget Hown Hf).
        destruct (Z.ltb_spec (Z.of_nat (List.length msgs))
                    (Checkpoint.messageCount cp)) as [Hlt|Hge].
        -- simpl. intros [= <-] _. split; [reflexivity|]. left.
           exists (Z.of_nat (List.length msgs)). split; [|reflexivity].
           exists cp, msgs. repeat split; assumption.
        -- assert (Hnot : forall n,
                     ~ (exists cp' msgs',
                          Some cp = Some cp'
                          /\ Checkpoint.sessionId cp' = sessionId
                          /\ Resolved msgs = Resolved msgs'
                          /\ n = Z.of_nat (List.length msgs')
                          /\ n < Checkpoint.messageCount cp')).
           { intros n [cp' [msgs' [[= <-] [_ [[= <-] [-> Hlt]]]]]]. lia. }
           destruct (Restore.js_index _ _) as [target|].
           ++ simpl. destruct (Restore.fork sessionClient _); simpl.
              ** intros [= <-]. discriminate.
              ** intros [= <-] _. split; [reflexivity|]. right.
                 split; [exact Hnot | reflexivity].
           ++ simpl. intros [= <-] _. split; [reflexivity|]. right.
              split; [exact Hnot | reflexivity].
      * rewrite (restore_fetch_rejected db sessionClient sessionId
                   checkpointId cp e Hget Hown Hf).
        simpl. intros [= <-] _. split; [reflexivity|]. right.
        split; [|reflexivity].
        intros n [cp' [msgs' [_ [_ [Habs _]]]]]. discriminate.
    + rewrite (restore_foreign db sessionClient sessionId checkpointId
                 cp Hget Hne).
      simpl. intros [= <-] _. split; [reflexivity|]. right.
      split; [|reflexivity].
      intros n [cp' [msgs' [[= <-] [Hown _]]]]. contradiction.
  - rewrite (restore_not_found db sessionClient sessionId checkpointId Hget).
    simpl. intros [= <-] _. split; [reflexivity|]. right.
    split; [|reflexivity].
    intros n [cp' [msgs' [Habs _]]]. discriminate.
Qed.

(** C10.  A failed result of [restore] or of [restoreByName] has the
    empty string as [newSessionId]; its [messageCount] is the live
    session's message count in the insufficient-messages case and 0 in
    every other failure (checkpoint not found, other session, missing
    boundary message, collaborator exception, unknown name).  The count
    recorded in the checkpoint does not enter either value. *)
Theorem failed_results_report_live_count_or_zero
    (db : Database.CheckpointDatabase)
    (sessionClient : Restore.OpenCodeSessionClient)
    (sessionId : string) :
  (forall checkpointId r,
     fst (Restore.run
            (Restore.restore db sessionClient sessionId checkpointId))
       = Resolved r ->
     RestoreResult.success r = false ->
     RestoreResult.newSessionId r = EmptyString
     /\ ((exists n, insufficient_messages db sessionClient sessionId
                      checkpointId n
                    /\ RestoreResult.messageCount r = n)
         \/ ((forall n, ~ insufficient_messages db sessionClient sessionId
                            checkpointId n)
             /\ RestoreResult.messageCount r = 0)))
  /\ (forall checkpointName r,
        fst (Restore.run
               (Restore.restoreByName db sessionClient sessionId
                  checkpointName))
          = Resolved r ->
        RestoreResult.success r = false ->
        RestoreResult.newSessionId r = EmptyString
        /\ ((exists found n,
               Database.findCheckpointByName db sessionId checkpointName
                 = Some found
               /\ insufficient_messages db sessionClient sessionId
                    (Checkpoint.id found) n
               /\ RestoreResult.messageCount r = n)
            \/ ((forall found n,
                   Database.findCheckpointByName db sessionId checkpointName
                     = Some found ->
                   ~ insufficient_messages db sessionClient sessionId
                       (Checkpoint.id found) n)
                /\ RestoreResult.messageCount r = 0))).
Proof.
  split.
  - intros checkpointId r. apply restore_failed_fields.
  - intros checkpointName r. unfold Restore.restoreByName.
    destruct (Database.findCheckpointByName db sessionId checkpointName)
      as [found|] eqn:Hfind.
    + intros Hr Hfail.
      destruct (restore_failed_fields db sessionClient sessionId
                  (Checkpoint.id found) r Hr Hfail)
        as [Hnew [[n [Hins Hcount]]|[Hnot Hcount]]].
      * split; [exact Hnew|]. left. exists found, n. tauto.
      * split; [exact Hnew|]. right. split; [|exact Hcount].
        intros found' n [= <-]. apply Hnot.
    + simpl. intros [= <-] _. split; [reflexivity|]. right.
      split; [|reflexivity]. intros found n Habs. discriminate.
Qed.

Lemma failed_results_report_live_count_or_zero_witness :
  RestoreResult.newSessionId
    (Restore.failed 3 "Other" 50
       "Current session has 50 messages, checkpoint expects 100")
    = EmptyString
  /\ ((exists n, insufficient_messages Sample.store (Sample.client 50)
                   "s2" 3 n
                 /\ 50 = n)
      \/ ((forall n, ~ insufficient_messages Sample.store (Sample.client 50)
                         "s2" 3 n)
          /\ 50 = 0)).
Proof.
  apply (proj1 (failed_results_report_live_count_or_zero Sample.store
                  (Sample.client 50) "s2") 3
           (Restore.failed 3 "Other" 50
              "Current session has 50 messages, checkpoint expects 100"));
    reflexivity.
Defined.

(* ================================================================== *)
(** ** Further properties of the store *)

Section StoreWrites.
Import Database.
Context {J : Type}.
Variable JSON_stringify : J -> string.
Variable empty_object : J.

Lemma wf_apply_writes (ws : list Mutation) : forall db,
  wf db -> wf (apply_writes JSON_stringify empty_object ws db).
Proof.
  induction ws as [|w ws IH]; simpl; intros db Hwf; [exact Hwf|].
  apply IH, wf_apply_write, Hwf.
Qed.

Lemma sqlite_sequence_apply_write (w : Mutation) db :
  sqlite_sequence db
  <= sqlite_sequence (apply_write JSON_stringify empty_object w db).
Proof. destruct w; simpl; lia. Qed.

Lemma sqlite_sequence_apply_writes (ws : list Mutation) : forall db,
  sqlite_sequence db
  <= sqlite_sequence (apply_writes JSON_stringify empty_object ws db).
Proof.
  induction ws as [|w ws IH]; simpl; intros db; [lia|].
  pose proof (sqlite_sequence_apply_write w db).
  specialize (IH (apply_write JSON_stringify empty_object w db)). lia.
Qed.

End StoreWrites.

Lemma find_filter_other (l : list Checkpoint.t) (i j : Z) :
  j <> i ->
  find (fun r => Checkpoint.id r =? j)
    (filter (fun r => negb (Checkpoint.id r =? i)) l)
  = find (fun r => Checkpoint.id r =? j) l.
Proof.
  intros Hne. induction l as [|y l IH]; simpl; [reflexivity|].
  destruct (Z.eqb_spec (Checkpoint.id y) i) as [Hi|Hi]; simpl.
  - destruct (Z.eqb_spec (Checkpoint.id y) j) as [Hj|Hj]; [congruence|].
    exact IH.
  - destruct (Checkpoint.id y =? j); [reflexivity | exact IH].
Qed.

Lemma filter_nothing_removed (f : Checkpoint.t -> bool) l :
  filter f l = [] -> filter (fun r => negb (f r)) l = l.
Proof.
  induction l as [|y l IH]; simpl; [reflexivity|].
  destruct (f y); simpl; [discriminate|]. intros H. f_equal. auto.
Qed.

Lemma filter_session_after_delete (s s' : string) l :
  filter (fun r => Checkpoint.sessionId r =? s')%string
    (filter (fun r => negb (Checkpoint.sessionId r =? s)%string) l)
  = if (s' =? s)%string then []
    else filter (fun r => Checkpoint.sessionId r =? s')%string l.
Proof.
  induction l as [|y l IH]; simpl.
  - destruct (s' =? s)%string; reflexivity.
  - destruct (String.eqb_spec (Checkpoint.sessionId y) s) as [Hs|Hs]; simpl.
    + rewrite IH. destruct (String.eqb_spec s' s) as [E|E]; [reflexivity|].
      destruct (String.eqb_spec (Checkpoint.sessionId y) s'); [congruence|].
      reflexivity.
    + rewrite IH. destruct (String.eqb_spec s' s) as [E|E].
      * destruct (String.eqb_spec (Checkpoint.sessionId y) s');
          [congruence | reflexivity].
      * reflexivity.
Qed.

Lemma order_by_length l :
  List.length (Database.order_by_created_at_desc l) = List.length l.
Proof. apply Permutation_length, order_by_Permutation. Qed.

Lemma sorted_app_between (l1 l2 : list Checkpoint.t) :
  StronglySorted not_older (l1 ++ l2) ->
  forall a b, In a l1 -> In b l2 -> not_older a b.
Proof.
  induction l1 as [|y l1 IH]; simpl; intros Hs a b Ha Hb; [contradiction|].
  apply StronglySorted_inv in Hs. destruct Hs as [Hs Hall].
  destruct Ha as [->|Ha].
  - rewrite Forall_forall in Hall. apply Hall. apply in_or_app. tauto.
  - eapply IH; eassumption.
Qed.

(** A row taken after every row of a list sorts in front of them. *)
Lemma order_by_newest_last (l : list Checkpoint.t) (x : Checkpoint.t) :
  (forall r, In r l -> Checkpoint.createdAt r < Checkpoint.createdAt x) ->
  Database.order_by_created_at_desc (l ++ [x])
  = x :: Database.order_by_created_at_desc l.
Proof.
  induction l as [|y l IH]; simpl; intros Hlt; [reflexivity|].
  rewrite IH by (intros r Hr; apply Hlt; tauto). simpl.
  destruct (Z.leb_spec (Checkpoint.createdAt x) (Checkpoint.createdAt y))
    as [Hle|_]; [|reflexivity].
  specialize (Hlt y (or_introl eq_refl)). lia.
Qed.

Lemma find_none_filter_nil (f : Checkpoint.t -> bool) l :
  find f l = None <-> filter f l = [].
Proof.
  induction l as [|y l IH]; simpl; [tauto|].
  destruct (f y); [split; discriminate | exact IH].
Qed.

Lemma filter_all_false (f : Checkpoint.t -> bool) l :
  (forall r, In r l -> f r = false) -> filter f l = [].
Proof.
  induction l as [|y l IH]; simpl; intros H; [reflexivity|].
  rewrite (H y (or_introl eq_refl)). apply IH. intros r Hr. apply H. tauto.
Qed.

Lemma sql_limit_nil n : Database.sql_limit n [] = [].
Proof. unfold Database.sql_limit. destruct (n <? 0); [|rewrite firstn_nil]; reflexivity. Qed.

(** X1.  Every store reached from the empty one by creations and
    deletions has pairwise distinct checkpoint ids, none of them above
    the AUTOINCREMENT counter. *)
Theorem reachable_store_wf {J : Type} (JSON_stringify : J -> string)
    (empty_object : J) (ws : list (@Database.Mutation J)) :
  Database.wf
    (Database.apply_writes JSON_stringify empty_object ws Database.empty).
Proof. apply wf_apply_writes, wf_empty. Qed.

(** X2.  In a well-formed store the id that [createCheckpoint] returns
    is held by no existing row; the id of any later creation is strictly
    larger, whatever was created or deleted in between, and it is the
    next integer when nothing happened in between. *)
Theorem createCheckpoint_ids_never_reused {J : Type}
    (JSON_stringify : J -> string) (empty_object : J)
    (first second : CheckpointCreate.t J) (t1 t2 : Z)
    (db : Database.CheckpointDatabase)
    (between : list (@Database.Mutation J)) :
  Database.wf db ->
  let c1 := Database.createCheckpoint JSON_stringify empty_object
              first t1 db in
  let c2 := Database.createCheckpoint JSON_stringify empty_object second t2
              (Database.apply_writes JSON_stringify empty_object between
                 (snd c1)) in
  Database.getCheckpoint db (fst c1) = None
  /\ fst c1 < fst c2
  /\ (between = [] -> fst c2 = fst c1 + 1).
Proof.
  intros [_ Hle] c1 c2. repeat split.
  - destruct (Database.getCheckpoint db (fst c1)) as [r|] eqn:Hget;
      [|reflexivity].
    apply getCheckpoint_Some in Hget. destruct Hget as [Hin Hid].
    rewrite Forall_forall in Hle. specialize (Hle r Hin).
    simpl in Hid. lia.
  - subst c1 c2. simpl.
    pose proof (sqlite_sequence_apply_writes JSON_stringify empty_object
                  between
                  (snd (Database.createCheckpoint JSON_stringify empty_object
                          first t1 db))) as Hmono.
    simpl in Hmono. lia.
  - intros ->. reflexivity.
Qed.

Lemma createCheckpoint_ids_never_reused_witness :
  let c1 := Database.createCheckpoint Sample.stringify tt
              (Sample.checkpoint "s1" "B" 11) 1700000000005 Sample.store in
  let c2 := Database.createCheckpoint Sample.stringify tt
              (Sample.checkpoint "s1" "C" 12) 1700000000009
              (Database.apply_writes Sample.stringify tt
                 [Database.WDelete 4; Database.WDeleteSession "s1"]
                 (snd c1)) in
  Database.getCheckpoint Sample.store (fst c1) = None
  /\ fst c1 < fst c2
  /\ ([@Database.WDelete unit 4; Database.WDeleteSession "s1"] = [] ->
      fst c2 = fst c1 + 1).
Proof.
  apply (createCheckpoint_ids_never_reused Sample.stringify tt
           (Sample.checkpoint "s1" "B" 11) (Sample.checkpoint "s1" "C" 12)
           1700000000005 1700000000009 Sample.store
           [Database.WDelete 4; Database.WDeleteSession "s1"]).
  split; simpl.
  - repeat constructor; simpl; intuition discriminate.
  - repeat constructor; simpl; lia.
Defined.

(** X3.  [deleteCheckpoint(id)] answers true exactly when a checkpoint
    with that id was stored; afterwards a lookup of that id finds
    nothing, every other id is looked up as before, and an answer of
    false means the store is unchanged. *)
Theorem deleteCheckpoint_removes_exactly_that_id
    (db : Database.CheckpointDatabase) (id : Z) :
  let d := Database.deleteCheckpoint id db in
  (fst d = true <-> Database.getCheckpoint db id <> None)
  /\ Database.getCheckpoint (snd d) id = None
  /\ (forall other, other <> id ->
        Database.getCheckpoint (snd d) other
        = Database.getCheckpoint db other)
  /\ (fst d = false -> snd d = db).
Proof.
  simpl. unfold Database.getCheckpoint. simpl.
  assert (Hcount :
    (0 <? Z.of_nat (List.length
                      (filter (fun r => Checkpoint.id r =? id)
                         (Database.rows db)))) = true
    <-> filter (fun r => Checkpoint.id r =? id) (Database.rows db) <> []).
  { destruct (filter _ (Database.rows db)); simpl.
    - split; [discriminate | congruence].
    - split; [discriminate | intros _; apply Z.ltb_lt; lia]. }
  repeat split.
  - intros H. rewrite find_none_filter_nil. apply Hcount, H.
  - intros H. apply Hcount. rewrite <- find_none_filter_nil. exact H.
  - apply find_none_filter_nil, filter_all_false.
    intros r Hr. apply filter_In in Hr. destruct Hr as [_ Hr].
    apply negb_true_iff in Hr. exact Hr.
  - intros other Hne. apply find_filter_other. exact Hne.
  - intros Hfalse. destruct db as [rs sq]. simpl in *. f_equal.
    apply (filter_nothing_removed (fun r => Checkpoint.id r =? id)).
    destruct (filter (fun r => Checkpoint.id r =? id) rs) eqn:E;
      [reflexivity|].
    exfalso. rewrite (proj2 Hcount) in Hfalse; [discriminate | congruence].
Qed.

(** X4.  [deleteSessionCheckpoints(s)] returns the number of
    checkpoints that an unlimited listing of [s] shows; afterwards every
    listing and every name lookup of [s] is empty, every other
    session's listing is as before, and a second call removes nothing
    and returns 0. *)
Theorem deleteSessionCheckpoints_cascade
    (db : Database.CheckpointDatabase) (sessionId : string) :
  let d := Database.deleteSessionCheckpoints sessionId db in
  fst d = Z.of_nat (List.length
                      (Database.listCheckpoints db sessionId (Some (-1))))
  /\ (forall limit, Database.listCheckpoints (snd d) sessionId limit = [])
  /\ (forall name,
        Database.findCheckpointByName (snd d) sessionId name = None)
  /\ (forall other limit, other <> sessionId ->
        Database.listCheckpoints (snd d) other limit
        = Database.listCheckpoints db other limit)
  /\ Database.deleteSessionCheckpoints sessionId (snd d) = (0, snd d).
Proof.
  simpl. repeat split.
  - unfold Database.listCheckpoints, Database.sql_limit. simpl.
    rewrite order_by_length. reflexivity.
  - intros limit. unfold Database.listCheckpoints. simpl.
    rewrite filter_session_after_delete, String.eqb_refl. simpl.
    apply sql_limit_nil.
  - intros name. unfold Database.findCheckpointByName. simpl.
    rewrite filter_all_false; [reflexivity|].
    intros r Hr. apply filter_In in Hr. destruct Hr as [_ Hr].
    apply negb_true_iff in Hr. rewrite Hr. reflexivity.
  - intros other limit Hne. unfold Database.listCheckpoints. simpl.
    rewrite filter_session_after_delete.
    apply String.eqb_neq in Hne. rewrite Hne. reflexivity.
  - unfold Database.deleteSessionCheckpoints. simpl.
    rewrite filter_session_after_delete, String.eqb_refl. simpl.
    f_equal. f_equal.
    apply (filter_nothing_removed
             (fun r => (Checkpoint.sessionId r =? sessionId)%string)).
    rewrite filter_session_after_delete, String.eqb_refl. reflexivity.
Qed.

(** X5.  With a negative limit, or a limit that is at least the number
    of the session's checkpoints, [listCheckpoints] returns all of the
    session's checkpoints, each exactly as often as it is stored. *)
Theorem listCheckpoints_unbounded
    (db : Database.CheckpointDatabase) (sessionId : string)
    (limit : option Z) :
  let n := match limit with Some n => n | None => 50 end in
  let mine := filter (fun r => Checkpoint.sessionId r =? sessionId)%string
                (Database.rows db) in
  n < 0 \/ Z.of_nat (List.length mine) <= n ->
  Permutation (Database.listCheckpoints db sessionId limit) mine.
Proof.
  intros n mine Hn. unfold Database.listCheckpoints, Database.sql_limit.
  fold n. fold mine.
  destruct (Z.ltb_spec n 0) as [Hneg|Hpos].
  - apply order_by_Permutation.
  - rewrite firstn_all2; [apply order_by_Permutation|].
    rewrite order_by_length. lia.
Qed.

Lemma listCheckpoints_unbounded_witness :
  Permutation (Database.listCheckpoints Sample.store "s1" (Some (-1)))
    (filter (fun r => Checkpoint.sessionId r =? "s1")%string
       (Database.rows Sample.store)).
Proof.
  apply (listCheckpoints_unbounded Sample.store "s1" (Some (-1))).
  left. simpl. lia.
Defined.

(** X6.  What a limit cuts off is never newer than what it keeps: a
    checkpoint of the session that is missing from the listing was
    created no later than every checkpoint in the listing. *)
Theorem listCheckpoints_keeps_newest
    (db : Database.CheckpointDatabase) (sessionId : string)
    (limit : option Z) (kept dropped : Checkpoint.t) :
  In kept (Database.listCheckpoints db sessionId limit) ->
  In dropped (Database.rows db) ->
  Checkpoint.sessionId dropped = sessionId ->
  ~ In dropped (Database.listCheckpoints db sessionId limit) ->
  Checkpoint.createdAt dropped <= Checkpoint.createdAt kept.
Proof.
  unfold Database.listCheckpoints, Database.sql_limit.
  set (n := match limit with Some n => n | None => 50 end).
  set (sorted := Database.order_by_created_at_desc _).
  intros Hkept Hin Hs Hnot.
  assert (Hd : In dropped sorted).
  { apply order_by_In, filter_In. split; [exact Hin|].
    apply String.eqb_eq. exact Hs. }
  destruct (n <? 0); [contradiction|].
  rewrite <- (firstn_skipn (Z.to_nat n) sorted) in Hd.
  apply in_app_or in Hd. destruct Hd as [Hd|Hd]; [contradiction|].
  apply (sorted_app_between (firstn (Z.to_nat n) sorted)
           (skipn (Z.to_nat n) sorted)); try assumption.
  rewrite firstn_skipn. apply order_by_sorted.
Qed.

Lemma listCheckpoints_keeps_newest_witness :
  1700000000001 <= 1700000000002.
Proof.
  apply (listCheckpoints_keeps_newest Sample.store "s1" (Some 1)
           (Checkpoint.mk 2 "s1" "A" None 10 None 1700000000002 "{}")
           (Checkpoint.mk 1 "s1" "Start" None 0 None 1700000000001 "{}")).
  - simpl. left. reflexivity.
  - simpl. left. reflexivity.
  - reflexivity.
  - simpl. intros [H|[]]. discriminate H.
Defined.

(** X7.  When the clock at creation is strictly later than the
    [createdAt] of every checkpoint the session already has, the new
    checkpoint heads every listing of the session with a non-zero
    limit and is what [findCheckpointByName] returns for its name;
    listings of other sessions are unchanged. *)
Theorem createCheckpoint_is_most_recent {J : Type}
    (JSON_stringify : J -> string) (empty_object : J)
    (data : CheckpointCreate.t J) (now : Z)
    (db : Database.CheckpointDatabase) :
  (forall r, In r (Database.rows db) ->
             Checkpoint.sessionId r = CheckpointCreate.sessionId data ->
             Checkpoint.createdAt r < now) ->
  let c := Database.createCheckpoint JSON_stringify empty_object
             data now db in
  let row := Database.new_row JSON_stringify empty_object data now (fst c) in
  (forall limit,
     match limit with Some n => n | None => 50 end <> 0 ->
     hd_error (Database.listCheckpoints (snd c)
                 (CheckpointCreate.sessionId data) limit) = Some row)
  /\ Database.findCheckpointByName (snd c)
       (CheckpointCreate.sessionId data) (CheckpointCreate.name data)
     = Some row
  /\ (forall other limit,
        other <> CheckpointCreate.sessionId data ->
        Database.listCheckpoints (snd c) other limit
        = Database.listCheckpoints db other limit).
Proof.
  intros Hclock c row. repeat split.
  - intros limit Hn. unfold Database.listCheckpoints. simpl.
    rewrite filter_app. simpl. rewrite String.eqb_refl.
    rewrite order_by_newest_last.
    + unfold Database.sql_limit.
      destruct (Z.ltb_spec (match limit with Some n => n | None => 50 end) 0)
        as [Hneg|Hpos]; [reflexivity|].
      destruct (Z.to_nat (match limit with Some n => n | None => 50 end))
        eqn:E; [lia | reflexivity].
    + intros r Hr. apply filter_In in Hr. destruct Hr as [Hin Hs].
      apply String.eqb_eq in Hs. simpl. apply Hclock; assumption.
  - unfold Database.findCheckpointByName. simpl.
    rewrite filter_app. simpl. rewrite !String.eqb_refl. simpl.
    rewrite order_by_newest_last; [reflexivity|].
    intros r Hr. apply filter_In in Hr. destruct Hr as [Hin Hs].
    apply andb_true_iff in Hs. destruct Hs as [Hs _].
    apply String.eqb_eq in Hs. simpl. apply Hclock; assumption.
  - intros other limit Hne. unfold Database.listCheckpoints. simpl.
    rewrite filter_app. simpl.
    destruct (String.eqb_spec (CheckpointCreate.sessionId data) other)
      as [E|_]; [congruence|].
    rewrite app_nil_r. reflexivity.
Qed.

Lemma createCheckpoint_is_most_recent_witness :
  option_map Checkpoint.id
    (Database.findCheckpointByName
       (snd (Database.createCheckpoint Sample.stringify tt
               (Sample.checkpoint "s1" "A" 12) 1700000000005 Sample.store))
       "s1" "A") = Some 4.
Proof.
  destruct (createCheckpoint_is_most_recent Sample.stringify tt
              (Sample.checkpoint "s1" "A" 12) 1700000000005 Sample.store)
    as [_ [Hfind _]].
  - simpl. intros r [<-|[<-|[<-|[]]]]; simpl; intros; try lia; discriminate.
  - exact (f_equal (option_map Checkpoint.id) Hfind).
Defined.

(** *** Counting sessions *)

Lemma filter_length_split (f : Checkpoint.t -> bool) l :
  (List.length (filter f l)
   + List.length (filter (fun r => negb (f r)) l))%nat = List.length l.
Proof.
  induction l as [|y l IH]; simpl; [reflexivity|].
  destruct (f y); simpl; lia.
Qed.

Lemma existsb_session_In (s : string) (l : list Checkpoint.t) :
  existsb (fun r => Checkpoint.sessionId r =? s)%string l = true
  <-> In s (map Checkpoint.sessionId l).
Proof.
  rewrite existsb_exists, in_map_iff. split.
  - intros [r [Hin Hs]]. apply String.eqb_eq in Hs. exists r. tauto.
  - intros [r [Hs Hin]]. exists r. split; [exact Hin|].
    apply String.eqb_eq. exact Hs.
Qed.

Lemma nodup_length_snoc (l : list string) (x : string) :
  List.length (nodup string_dec (l ++ [x]))
  = (List.length (nodup string_dec l)
     + if in_dec string_dec x l then 0 else 1)%nat.
Proof.
  induction l as [|y l IH]; simpl; [reflexivity|].
  assert (Hyx : In y (l ++ [x]) <-> In y l \/ x = y).
  { rewrite in_app_iff. simpl. tauto. }
  destruct (in_dec string_dec y (l ++ [x])) as [H1|H1];
    destruct (in_dec string_dec y l) as [H2|H2];
    destruct (string_dec y x) as [E|E];
    destruct (in_dec string_dec x l) as [H3|H3];
    simpl; rewrite ?IH;
    destruct (in_dec string_dec x l) as [H4|H4];
    try contradiction; try lia;
    exfalso; subst; tauto || (apply E; symmetry; tauto) || idtac.
  all: try (destruct (proj1 Hyx H1) as [?|?]; [contradiction | congruence]).
Qed.

Lemma In_sessions_after_delete (s s' : string) (l : list Checkpoint.t) :
  s' <> s ->
  In s' (map Checkpoint.sessionId
           (filter (fun r => negb (Checkpoint.sessionId r =? s)%string) l))
  <-> In s' (map Checkpoint.sessionId l).
Proof.
  intros Hne. rewrite !in_map_iff. split.
  - intros [r [Hs Hin]]. apply filter_In in Hin. exists r. tauto.
  - intros [r [Hs Hin]]. exists r. split; [exact Hs|].
    apply filter_In. split; [exact Hin|].
    apply negb_true_iff, String.eqb_neq. congruence.
Qed.

Lemma nodup_length_after_delete (s : string) (l : list Checkpoint.t) :
  List.length (nodup string_dec (map Checkpoint.sessionId l))
  = (List.length
       (nodup string_dec
          (map Checkpoint.sessionId
             (filter (fun r => negb (Checkpoint.sessionId r =? s)%string) l)))
     + if in_dec string_dec s (map Checkpoint.sessionId l) then 1 else 0)%nat.
Proof.
  induction l as [|y l IH]; simpl; [reflexivity|].
  destruct (String.eqb_spec (Checkpoint.sessionId y) s) as [Hs|Hs]; simpl.
  - destruct (string_dec (Checkpoint.sessionId y) s) as [E|E]; [|contradiction].
    rewrite Hs.
    destruct (in_dec string_dec s (map Checkpoint.sessionId l)) as [Hin|Hin];
      simpl; rewrite IH;
      destruct (in_dec string_dec s (map Checkpoint.sessionId l));
      try contradiction; lia.
  - destruct (string_dec (Checkpoint.sessionId y) s) as [E|E]; [contradiction|].
    pose proof (In_sessions_after_delete s (Checkpoint.sessionId y) l Hs)
      as Hiff.
    destruct (in_dec string_dec (Checkpoint.sessionId y)
                (map Checkpoint.sessionId
                   (filter (fun r => negb (Checkpoint.sessionId r =? s)%string)
                      l))) as [H1|H1];
      destruct (in_dec string_dec (Checkpoint.sessionId y)
                  (map Checkpoint.sessionId l)) as [H2|H2];
      try (exfalso; tauto); simpl; rewrite IH;
      destruct (in_dec string_dec s (map Checkpoint.sessionId l)); lia.
Qed.

Lemma nodup_length_le (l : list string) :
  (List.length (nodup string_dec l) <= List.length l)%nat.
Proof.
  induction l as [|y l IH]; simpl; [lia|].
  destruct (in_dec string_dec y l); simpl; lia.
Qed.

Lemma nodup_nil_iff (l : list string) : nodup string_dec l = [] <-> l = [].
Proof.
  split; [|intros ->; reflexivity].
  destruct l as [|y l]; [reflexivity|]. intros H. exfalso.
  assert (Hin : In y (nodup string_dec (y :: l))).
  { apply nodup_In. left. reflexivity. }
  rewrite H in Hin. exact Hin.
Qed.

(** The distinct session ids of the table are the sessions that list
    at least one checkpoint. *)
Lemma session_listed_iff (db : Database.CheckpointDatabase) (s : string) :
  In s (map Checkpoint.sessionId (Database.rows db))
  <-> Database.listCheckpoints db s (Some (-1)) <> [].
Proof.
  split.
  - intros Hin Hnil. apply in_map_iff in Hin. destruct Hin as [r [Hs Hr]].
    assert (Hl : In r (Database.listCheckpoints db s (Some (-1)))).
    { unfold Database.listCheckpoints, Database.sql_limit. simpl.
      apply order_by_In, filter_In. split; [exact Hr|].
      apply String.eqb_eq. exact Hs. }
    rewrite Hnil in Hl. exact Hl.
  - intros Hne. apply in_map_iff.
    destruct (Database.listCheckpoints db s (Some (-1))) as [|r l] eqn:E;
      [congruence|].
    assert (Hl : In r (Database.listCheckpoints db s (Some (-1)))).
    { rewrite E. left. reflexivity. }
    unfold Database.listCheckpoints, Database.sql_limit in Hl. simpl in Hl.
    apply order_by_In, filter_In in Hl. destruct Hl as [Hr Hs].
    apply String.eqb_eq in Hs. exists r. tauto.
Qed.

(** X8.  [totalSessions] is the number of sessions that list at least
    one checkpoint: it equals the length of every duplicate-free list
    whose members are exactly the sessions with a non-empty unlimited
    listing.  It never exceeds [totalCheckpoints], which is the number
    of stored rows, and is 0 exactly when [totalCheckpoints] is. *)
Theorem getStats_counts_sessions_with_checkpoints
    (db : Database.CheckpointDatabase) (sessions : list string) :
  NoDup sessions ->
  (forall s, In s sessions
             <-> Database.listCheckpoints db s (Some (-1)) <> []) ->
  snd (Database.getStats db) = Z.of_nat (List.length sessions)
  /\ fst (Database.getStats db) = Z.of_nat (List.length (Database.rows db))
  /\ 0 <= snd (Database.getStats db) <= fst (Database.getStats db)
  /\ (snd (Database.getStats db) = 0 <-> fst (Database.getStats db) = 0).
Proof.
  intros Hnd Hmem. unfold Database.getStats. simpl.
  assert (Hlen : List.length
                   (nodup string_dec
                      (map Checkpoint.sessionId (Database.rows db)))
                 = List.length sessions).
  { apply Permutation_length, NoDup_Permutation.
    - apply NoDup_nodup.
    - exact Hnd.
    - intros s. rewrite nodup_In, session_listed_iff. symmetry. apply Hmem. }
  split; [rewrite Hlen; reflexivity|]. split; [reflexivity|].
  pose proof (nodup_length_le (map Checkpoint.sessionId (Database.rows db)))
    as Hle.
  rewrite length_map in Hle.
  split; [lia|]. split.
  - intros H.
    assert (Hnil : nodup string_dec
                     (map Checkpoint.sessionId (Database.rows db)) = []).
    { destruct (nodup _ _); [reflexivity | simpl in H; lia]. }
    apply (proj1 (nodup_nil_iff _)) in Hnil.
    destruct (Database.rows db); [reflexivity | simpl in Hnil; discriminate Hnil].
  - intros H. destruct (Database.rows db); [reflexivity | simpl in H; lia].
Qed.

Lemma getStats_counts_sessions_with_checkpoints_witness :
  snd (Database.getStats Sample.store) = 2
  /\ fst (Database.getStats Sample.store) = 3.
Proof.
  destruct (getStats_counts_sessions_with_checkpoints Sample.store
              ["s1"; "s2"]) as [Hs [Hc _]].
  - repeat constructor; simpl; intuition discriminate.
  - intros s. rewrite <- session_listed_iff. simpl.
    split; intros H; intuition congruence.
  - split; [exact Hs | exact Hc].
Defined.

(** X9.  Creating a checkpoint raises [totalCheckpoints] by one and
    raises [totalSessions] by one exactly when the session had no
    checkpoint yet. *)
Theorem getStats_after_createCheckpoint {J : Type}
    (JSON_stringify : J -> string) (empty_object : J)
    (data : CheckpointCreate.t J) (now : Z)
    (db : Database.CheckpointDatabase) :
  Database.getStats
    (snd (Database.createCheckpoint JSON_stringify empty_object data now db))
  = (fst (Database.getStats db) + 1,
     if existsb (fun r => Checkpoint.sessionId r
                          =? CheckpointCreate.sessionId data)%string
          (Database.rows db)
     then snd (Database.getStats db)
     else snd (Database.getStats db) + 1).
Proof.
  unfold Database.getStats. simpl.
  rewrite length_app, map_app. simpl. rewrite nodup_length_snoc.
  f_equal; [lia|].
  pose proof (existsb_session_In (CheckpointCreate.sessionId data)
                (Database.rows db)) as Hiff.
  destruct (in_dec string_dec (CheckpointCreate.sessionId data)
              (map Checkpoint.sessionId (Database.rows db))) as [Hin|Hin].
  - rewrite (proj2 Hiff Hin). lia.
  - destruct (existsb _ (Database.rows db)); [exfalso; tauto | lia].
Qed.

(** X10.  Deleting a session's checkpoints lowers [totalCheckpoints] by
    the returned count and lowers [totalSessions] by one exactly when
    the session had a checkpoint. *)
Theorem getStats_after_deleteSessionCheckpoints
    (db : Database.CheckpointDatabase) (sessionId : string) :
  let d := Database.deleteSessionCheckpoints sessionId db in
  Database.getStats (snd d)
  = (fst (Database.getStats db) - fst d,
     if 0 <? fst d
     then snd (Database.getStats db) - 1
     else snd (Database.getStats db)).
Proof.
  unfold Database.getStats. simpl.
  pose proof (filter_length_split
                (fun r => (Checkpoint.sessionId r =? sessionId)%string)
                (Database.rows db)) as Hsplit.
  cbv beta in Hsplit.
  pose proof (nodup_length_after_delete sessionId (Database.rows db)) as Hnd.
  pose proof (existsb_session_In sessionId (Database.rows db)) as Hiff.
  f_equal; [lia|].
  destruct (in_dec string_dec sessionId
              (map Checkpoint.sessionId (Database.rows db))) as [Hin|Hin].
  - apply Hiff, existsb_exists in Hin. destruct Hin as [r [Hr Hs]].
    assert (Hf : In r (filter (fun r => (Checkpoint.sessionId r
                                         =? sessionId)%string)
                         (Database.rows db))).
    { apply filter_In. tauto. }
    destruct (filter _ (Database.rows db)) as [|r0 l0] eqn:E in Hf |- *;
      [contradiction|].
    simpl List.length.
    destruct (Z.ltb_spec 0 (Z.of_nat (S (List.length l0)))); lia.
  - rewrite (filter_all_false
               (fun r => (Checkpoint.sessionId r =? sessionId)%string)).
    + simpl. lia.
    + intros r Hr. apply String.eqb_neq. intros Hs. apply Hin.
      apply in_map_iff. exists r. tauto.
Qed.

(* ================================================================== *)
(** ** Further properties of the resolver *)

Lemma js_index_Some {A} (a : list A) (i : Z) (x : A) :
  Restore.js_index a i = Some x ->
  0 <= i /\ nth_error a (Z.to_nat i) = Some x.
Proof.
  unfold Restore.js_index.
  destruct (Z.ltb_spec i 0); [discriminate | tauto].
Qed.

Lemma getCheckpoint_None (db : Database.CheckpointDatabase) (id : Z) :
  (forall r, In r (Database.rows db) -> Checkpoint.id r <> id) ->
  Database.getCheckpoint db id = None.
Proof.
  intros H. destruct (Database.getCheckpoint db id) as [r|] eqn:Hget;
    [|reflexivity].
  apply getCheckpoint_Some in Hget. destruct Hget as [Hin Hid].
  exfalso. exact (H r Hin Hid).
Qed.

Lemma findCheckpointByName_Some
    (db : Database.CheckpointDatabase) (s n : string) (cp : Checkpoint.t) :
  Database.findCheckpointByName db s n = Some cp ->
  In cp (Database.rows db)
  /\ Checkpoint.sessionId cp = s /\ Checkpoint.name cp = n.
Proof.
  unfold Database.findCheckpointByName. rewrite hd_error_sql_limit_1.
  intros Hhd.
  assert (Hin : In cp (Database.order_by_created_at_desc
                         (filter (fun r => (Checkpoint.sessionId r =? s)%string
                                           && (Checkpoint.name r =? n)%string)
                            (Database.rows db)))).
  { destruct (Database.order_by_created_at_desc _); [discriminate|].
    simpl in Hhd. injection Hhd as ->. left. reflexivity. }
  apply order_by_In, filter_In in Hin. destruct Hin as [Hin Hb].
  apply andb_true_iff in Hb. rewrite !String.eqb_eq in Hb. tauto.
Qed.

Lemma findCheckpointByName_None
    (db : Database.CheckpointDatabase) (s n : string) :
  (forall r, In r (Database.rows db) ->
             Checkpoint.sessionId r = s -> Checkpoint.name r <> n) ->
  Database.findCheckpointByName db s n = None.
Proof.
  intros H.
  destruct (Database.findCheckpointByName db s n) as [cp|] eqn:Hf;
    [|reflexivity].
  apply findCheckpointByName_Some in Hf. destruct Hf as [Hin [Hs Hn]].
  exfalso. exact (H cp Hin Hs Hn).
Qed.

(** X11.  The calls [restore] makes on the session client are: none; or
    one message fetch for the caller's session; or that fetch,
    resolved, followed by one fork.  The fork request names the
    caller's session and a message of the fetched sequence, and is
    built from the stored checkpoint. *)
Theorem restore_call_discipline
    (db : Database.CheckpointDatabase)
    (sessionClient : Restore.OpenCodeSessionClient)
    (sessionId : string) (checkpointId : Z) :
  let calls := snd (Restore.run
                      (Restore.restore db sessionClient sessionId
                         checkpointId)) in
  calls = []
  \/ calls = [Restore.MessagesCall sessionId
                (Restore.messages sessionClient sessionId)]
  \/ exists checkpoint msgs target,
       Database.getCheckpoint db checkpointId = Some checkpoint
       /\ Restore.messages sessionClient sessionId = Resolved msgs
       /\ In target msgs
       /\ calls = [Restore.MessagesCall sessionId (Resolved msgs);
                   Restore.ForkCall
                     (fork_request sessionId checkpoint target)
                     (Restore.fork sessionClient
                        (fork_request sessionId checkpoint target))].
Proof.
  simpl.
  destruct (Database.getCheckpoint db checkpointId) as [cp|] eqn:Hget.
  - destruct (string_dec (Checkpoint.sessionId cp) sessionId) as [Hown|Hne].
    + destruct (Restore.messages sessionClient sessionId) as [msgs|e] eqn:Hf.
      * rewrite (restore_fetched db sessionClient sessionId checkpointId
                   cp msgs Hget Hown Hf).
        destruct (_ <? _); [right; left; reflexivity|].
        destruct (Restore.js_index msgs _) as [target|] eqn:Hidx;
          [|right; left; reflexivity].
        right. right. exists cp, msgs, target.
        apply js_index_Some in Hidx. destruct Hidx as [_ Hnth].
        apply nth_error_In in Hnth. repeat split; assumption || reflexivity.
      * rewrite (restore_fetch_rejected db sessionClient sessionId
                   checkpointId cp e Hget Hown Hf).
        right. left. reflexivity.
    + rewrite (restore_foreign db sessionClient sessionId checkpointId
                 cp Hget Hne). left. reflexivity.
  - rewrite (restore_not_found db sessionClient sessionId checkpointId Hget).
    left. reflexivity.
Qed.

(** X12.  [restore] reports success exactly when the checkpoint exists,
    belongs to the caller's session, the fetch resolves to at least as
    many messages as the checkpoint records, that record is at least 1,
    and the fork at the message with 0-based index [messageCount - 1]
    resolves; the new session id is then the fork's.  A result carries
    an error text exactly when it is not a success. *)
Theorem restore_succeeds_iff
    (db : Database.CheckpointDatabase)
    (sessionClient : Restore.OpenCodeSessionClient)
    (sessionId : string) (checkpointId : Z) (r : RestoreResult.t) :
  fst (Restore.run (Restore.restore db sessionClient sessionId checkpointId))
    = Resolved r ->
  (RestoreResult.success r = true <->
   exists checkpoint msgs target forked,
     Database.getCheckpoint db checkpointId = Some checkpoint
     /\ Checkpoint.sessionId checkpoint = sessionId
     /\ Restore.messages sessionClient sessionId = Resolved msgs
     /\ 1 <= Checkpoint.messageCount checkpoint
             <= Z.of_nat (List.length msgs)
     /\ nth_error msgs (Z.to_nat (Checkpoint.messageCount checkpoint - 1))
        = Some target
     /\ Restore.fork sessionClient (fork_request sessionId checkpoint target)
        = Resolved forked
     /\ RestoreResult.newSessionId r = Forked.id forked)
  /\ (RestoreResult.success r = false <-> RestoreResult.error r <> None).
Proof.
  destruct (Database.getCheckpoint db checkpointId) as [cp|] eqn:Hget.
  - destruct (string_dec (Checkpoint.sessionId cp) sessionId) as [Hown|Hne].
    + destruct (Restore.messages sessionClient sessionId) as [msgs|e] eqn:Hf.
      * rewrite (restore_fetched db sessionClient sessionId checkpointId
                   cp msgs Hget Hown Hf).
        destruct (Z.ltb_spec (Z.of_nat (List.length msgs))
                    (Checkpoint.messageCount cp)) as [Hlt|Hge].
        -- simpl. intros [= <-]. simpl. split; [split|split]; try discriminate;
             try reflexivity.
           intros [cp' [msgs' [t [f [[= <-] [_ [[= <-] [Hk _]]]]]]]]. lia.
        -- destruct (Restore.js_index msgs (Checkpoint.messageCount cp - 1))
             as [target|] eqn:Hidx.
           ++ pose proof (js_index_Some _ _ _ Hidx) as [Hpos Hnth].
              simpl.
              destruct (Restore.fork sessionClient
                          (fork_request sessionId cp target))
                as [forked|e] eqn:Hfork.
              ** intros [= <-]. simpl. split; [split|split];
                   try discriminate; try congruence.
                 intros _. exists cp, msgs, target, forked.
                 repeat split; try assumption; try reflexivity; lia.
              ** intros [= <-]. simpl. split; [split|split];
                   try discriminate; try reflexivity.
                 intros [cp' [msgs' [t [f [[= <-] [_ [[= <-] [_ [Hn [Hk _]]]]]]]]]].
                 rewrite Hnth in Hn. injection Hn as <-.
                 rewrite Hfork in Hk. discriminate.
           ++ simpl. intros [= <-]. simpl. split; [split|split];
                try discriminate; try reflexivity.
              intros [cp' [msgs' [t [f [[= <-] [_ [[= <-] [Hk _]]]]]]]].
              destruct (js_index_inside msgs (Checkpoint.messageCount cp) Hk)
                as [x [Hx _]]. congruence.
      * rewrite (restore_fetch_rejected db sessionClient sessionId
                   checkpointId cp e Hget Hown Hf).
        simpl. intros [= <-]. simpl. split; [split|split];
          try discriminate; try reflexivity.
        intros [cp' [msgs' [t [f [_ [_ [Habs _]]]]]]]. discriminate.
    + rewrite (restore_foreign db sessionClient sessionId checkpointId
                 cp Hget Hne).
      simpl. intros [= <-]. simpl. split; [split|split];
        try discriminate; try reflexivity.
      intros [cp' [msgs' [t [f [[= <-] [Hown _]]]]]]. contradiction.
  - rewrite (restore_not_found db sessionClient sessionId checkpointId Hget).
    simpl. intros [= <-]. simpl. split; [split|split];
      try discriminate; try reflexivity.
    intros [cp' [msgs' [t [f [Habs _]]]]]. discriminate.
Qed.

Lemma restore_succeeds_iff_witness :
  exists checkpoint msgs target forked,
    Database.getCheckpoint Sample.store 2 = Some checkpoint
    /\ Checkpoint.sessionId checkpoint = "s1"
    /\ Restore.messages (Sample.client 20) "s1" = Resolved msgs
    /\ 1 <= Checkpoint.messageCount checkpoint
            <= Z.of_nat (List.length msgs)
    /\ nth_error msgs (Z.to_nat (Checkpoint.messageCount checkpoint - 1))
       = Some target
    /\ Restore.fork (Sample.client 20) (fork_request "s1" checkpoint target)
       = Resolved forked
    /\ "forked-session-123" = Forked.id forked.
Proof.
  apply (proj1 (proj1 (restore_succeeds_iff Sample.store (Sample.client 20)
                         "s1" 2
                         {| RestoreResult.success := true;
                            RestoreResult.checkpointId := 2;
                            RestoreResult.checkpointName := "A";
                            RestoreResult.newSessionId := "forked-session-123";
                            RestoreResult.messageCount := 10;
                            RestoreResult.error := None |}
                         eq_refl)));
    reflexivity.
Defined.

(** X13.  [canRestore] is a dry run: it always resolves, never calls
    [fork], makes at most the one message fetch for the caller's
    session, and gives a reason exactly when it answers
    [valid: false]. *)
Theorem canRestore_is_a_dry_run
    (db : Database.CheckpointDatabase)
    (sessionClient : Restore.OpenCodeSessionClient)
    (sessionId : string) (checkpointId : Z) :
  let run := Restore.run
               (Restore.canRestore db sessionClient sessionId checkpointId) in
  (exists v, fst run = Resolved v
             /\ (Validation.valid v = false <-> Validation.reason v <> None))
  /\ Restore.fork_calls (snd run) = []
  /\ (snd run = []
      \/ snd run = [Restore.MessagesCall sessionId
                      (Restore.messages sessionClient sessionId)]).
Proof.
  unfold Restore.run, Restore.canRestore. simpl.
  destruct (Database.getCheckpoint db checkpointId) as [cp|].
  - destruct (negb (Checkpoint.sessionId cp =? sessionId)%string).
    + simpl. split; [|split; [reflexivity | left; reflexivity]].
      eexists. split; [reflexivity|]. simpl. split; congruence.
    + unfold Restore.try_catch, Restore.bind, Restore.await_messages.
      destruct (Restore.messages sessionClient sessionId) as [msgs|e]; simpl.
      * destruct (_ <? _); simpl;
          (split; [|split; [reflexivity | right; reflexivity]]);
          eexists; (split; [reflexivity|]); simpl; split; congruence.
      * split; [|split; [reflexivity | right; reflexivity]].
        eexists. split; [reflexivity|]. simpl. split; congruence.
  - simpl. split; [|split; [reflexivity | left; reflexivity]].
    eexists. split; [reflexivity|]. simpl. split; congruence.
Qed.

(** X14.  [canRestore] never rejects what [restore] would carry out:
    whenever [restore] reaches the fork, [canRestore] on the same
    inputs answers [valid: true]. *)
Theorem canRestore_accepts_every_restorable_checkpoint
    (db : Database.CheckpointDatabase)
    (sessionClient : Restore.OpenCodeSessionClient)
    (sessionId : string) (checkpointId : Z) :
  reaches_fork db sessionClient sessionId checkpointId ->
  fst (Restore.run
         (Restore.canRestore db sessionClient sessionId checkpointId))
  = Resolved (Validation.mk true None).
Proof.
  unfold reaches_fork.
  destruct (Database.getCheckpoint db checkpointId) as [cp|] eqn:Hget.
  - destruct (string_dec (Checkpoint.sessionId cp) sessionId) as [Hown|Hne].
    + destruct (Restore.messages sessionClient sessionId) as [msgs|e] eqn:Hf.
      * rewrite (canRestore_fetched db sessionClient sessionId checkpointId
                   cp msgs Hget Hown Hf).
        rewrite (restore_fetched db sessionClient sessionId checkpointId
                   cp msgs Hget Hown Hf).
        destruct (_ <? _); [simpl; congruence | reflexivity].
      * rewrite (restore_fetch_rejected db sessionClient sessionId
                   checkpointId cp e Hget Hown Hf).
        simpl. congruence.
    + rewrite (restore_foreign db sessionClient sessionId checkpointId
                 cp Hget Hne). simpl. congruence.
  - rewrite (restore_not_found db sessionClient sessionId checkpointId Hget).
    simpl. congruence.
Qed.

Lemma canRestore_accepts_every_restorable_checkpoint_witness :
  fst (Restore.run (Restore.canRestore Sample.store (Sample.client 20)
                      "s1" 2))
  = Resolved (Validation.mk true None).
Proof.
  apply (canRestore_accepts_every_restorable_checkpoint Sample.store
           (Sample.client 20) "s1" 2).
  unfold reaches_fork. simpl. discriminate.
Defined.






(** X17.  When the session has no checkpoint with exactly the requested
    name (other sessions' checkpoints and names differing in case do
    not count), [restoreByName] calls no collaborator and returns the
    failure [No checkpoint named "<name>" found for session] with
    checkpoint id 0. *)
Theorem restoreByName_unknown_name
    (db : Database.CheckpointDatabase)
    (sessionClient : Restore.OpenCodeSessionClient)
    (sessionId checkpointName : string) :
  (forall r, In r (Database.rows db) ->
             Checkpoint.sessionId r = sessionId ->
             Checkpoint.name r <> checkpointName) ->
  Restore.run (Restore.restoreByName db sessionClient sessionId
                 checkpointName)
  = (Resolved
       {| RestoreResult.success := false;
          RestoreResult.checkpointId := 0;
          RestoreResult.checkpointName := checkpointName;
          RestoreResult.newSessionId := EmptyString;
          RestoreResult.messageCount := 0;
          RestoreResult.error :=
            Some ("No checkpoint named " ++ double_quote ++ checkpointName
                    ++ double_quote ++ " found for session")%string |},
     []).
Proof.
  intros Hnone. unfold Restore.restoreByName.
  rewrite (findCheckpointByName_None db sessionId checkpointName Hnone).
  reflexivity.
Qed.

Lemma restoreByName_unknown_name_witness :
  snd (Restore.run (Restore.restoreByName Sample.store (Sample.client 20)
                      "s1" "other")) = [].
Proof.
  rewrite (restoreByName_unknown_name Sample.store (Sample.client 20)
             "s1" "other"); [reflexivity|].
  simpl. intros r [<-|[<-|[<-|[]]]]; simpl; intros; discriminate.
Defined.

(** X18.  Once a session's checkpoints are deleted, no [restore] issued
    for that session, under any checkpoint id, reaches the session
    client: each returns a failure without fetching messages or
    forking. *)
Theorem restore_after_deleteSessionCheckpoints
    (db : Database.CheckpointDatabase)
    (sessionClient : Restore.OpenCodeSessionClient)
    (sessionId : string) (checkpointId : Z) :
  let db' := snd (Database.deleteSessionCheckpoints sessionId db) in
  snd (Restore.run
         (Restore.restore db' sessionClient sessionId checkpointId)) = []
  /\ exists r,
       fst (Restore.run
              (Restore.restore db' sessionClient sessionId checkpointId))
         = Resolved r
       /\ RestoreResult.success r = false.
Proof.
  simpl.
  set (db' := {| Database.rows := _; Database.sqlite_sequence := _ |}).
  destruct (Database.getCheckpoint db' checkpointId) as [cp|] eqn:Hget.
  - assert (Hne : Checkpoint.sessionId cp <> sessionId).
    { apply getCheckpoint_Some in Hget. destruct Hget as [Hin _].
      unfold db' in Hin. simpl in Hin. apply filter_In in Hin.
      destruct Hin as [_ Hb]. apply negb_true_iff in Hb.
      apply String.eqb_neq. exact Hb. }
    rewrite (restore_foreign db' sessionClient sessionId checkpointId
               cp Hget Hne).
    split; [reflexivity|]. eexists. split; reflexivity.
  - rewrite (restore_not_found db' sessionClient sessionId checkpointId Hget).
    split; [reflexivity|]. eexists. split; reflexivity.
Qed.

(* ================================================================== *)
(** ** The plugin: references and tools *)

Lemma digits_value_stops (acc : Z) (rest : string) :
  starts_with_digit rest = false -> digits_value acc rest = acc.
Proof.
  destruct rest as [|c rest]; simpl; [reflexivity|]. intros ->. reflexivity.
Qed.

Lemma digits_value_step (acc : Z) (c : ascii) (s : string) :
  is_digit c = true ->
  digits_value acc (String c s)
  = digits_value (10 * acc + Z.of_nat (nat_of_ascii c - 48)) s.
Proof. intros H. simpl. rewrite H. reflexivity. Qed.

Ltac digit_value :=
  match goal with
  | |- context [Z.of_nat ?x] =>
      let v := eval vm_compute in (Z.of_nat x) in
      change (Z.of_nat x) with v
  end.

Lemma digits_value_of_uint_acc (d : Decimal.uint) (rest : string) :
  starts_with_digit rest = false ->
  forall p,
    digits_value (Z.pos p) (NilEmpty.string_of_uint d ++ rest)
    = Z.pos (Pos.of_uint_acc d p).
Proof.
  intros Hrest.
  induction d; intros p;
    cbn [NilEmpty.string_of_uint append Pos.of_uint_acc];
    try (rewrite digits_value_step by reflexivity;
         rewrite <- IHd; f_equal; digit_value; lia).
  apply digits_value_stops, Hrest.
Qed.

Lemma digits_value_of_uint (d : Decimal.uint) (rest : string) :
  starts_with_digit rest = false ->
  digits_value 0 (NilEmpty.string_of_uint d ++ rest)
  = Z.of_N (Pos.of_uint d).
Proof.
  intros Hrest.
  induction d;
    cbn [NilEmpty.string_of_uint append Pos.of_uint];
    try (rewrite digits_value_step by reflexivity;
         match goal with
         | |- digits_value ?a _ = Z.of_N (N.pos _) =>
             let v := eval vm_compute in a in change a with v
         end;
         rewrite digits_value_of_uint_acc by exact Hrest; reflexivity).
  - apply digits_value_stops, Hrest.
  - rewrite digits_value_step by reflexivity. exact IHd.
Qed.

Lemma digit_is_plain (c : ascii) :
  is_digit c = true ->
  is_white_space c = false /\ Ascii.eqb c "-" = false
  /\ Ascii.eqb c "+" = false.
Proof.
  destruct c as [[] [] [] [] [] [] [] []]; simpl; intros H;
    try discriminate H; repeat split; reflexivity.
Qed.

Lemma string_of_uint_head (d : Decimal.uint) :
  d <> Decimal.Nil ->
  exists c s, NilEmpty.string_of_uint d = String c s /\ is_digit c = true.
Proof.
  destruct d; intros H; try (eexists; eexists; split; reflexivity).
  contradiction.
Qed.

Lemma parseInt10_unsigned (c : ascii) (s : string) :
  is_digit c = true ->
  parseInt10 (String c s) = Some (digits_value 0 (String c s)).
Proof.
  intros Hc. destruct (digit_is_plain c Hc) as [Hw [Hm Hp]].
  unfold parseInt10. cbn [trim_start]. rewrite Hw, Hm, Hp.
  cbn [fst snd]. rewrite Hc. f_equal; lia.
Qed.

Lemma parseInt10_negative (c : ascii) (s : string) :
  is_digit c = true ->
  parseInt10 (String "-" (String c s)) = Some (- digits_value 0 (String c s)).
Proof.
  intros Hc. unfold parseInt10. cbn [trim_start].
  change (is_white_space "-") with false. cbv iota.
  rewrite Ascii.eqb_refl. cbn [fst snd]. rewrite Hc. f_equal; lia.
Qed.

(** [parseInt] on a decimal numeral followed by a non-digit. *)
Lemma parseInt10_decimal_prefix (n : Z) (rest : string) :
  starts_with_digit rest = false ->
  parseInt10 (show_number n ++ rest) = Some n.
Proof.
  intros Hrest. unfold show_number.
  destruct n as [|p|p]; cbn [Z.to_int NilZero.string_of_int].
  - change (NilZero.string_of_uint Decimal.zero) with "0".
    cbn [append]. rewrite parseInt10_unsigned by reflexivity.
    rewrite digits_value_step by reflexivity.
    rewrite digits_value_stops by exact Hrest. reflexivity.
  - pose proof (Unsigned.to_uint_nonnil p) as Hnil.
    pose proof (digits_value_of_uint (Pos.to_uint p) rest Hrest) as Hv.
    destruct (string_of_uint_head _ Hnil) as [c [s [Hs Hc]]].
    assert (Hz : NilZero.string_of_uint (Pos.to_uint p)
                 = NilEmpty.string_of_uint (Pos.to_uint p)).
    { destruct (Pos.to_uint p); [contradiction | reflexivity ..]. }
    rewrite Hz. rewrite Hs in *. cbn [append] in *.
    rewrite parseInt10_unsigned by exact Hc. rewrite Hv.
    f_equal. exact (DecimalZ.of_to (Z.pos p)).
  - pose proof (Unsigned.to_uint_nonnil p) as Hnil.
    pose proof (digits_value_of_uint (Pos.to_uint p) rest Hrest) as Hv.
    destruct (string_of_uint_head _ Hnil) as [c [s [Hs Hc]]].
    assert (Hz : NilZero.string_of_uint (Pos.to_uint p)
                 = NilEmpty.string_of_uint (Pos.to_uint p)).
    { destruct (Pos.to_uint p); [contradiction | reflexivity ..]. }
    rewrite Hz. rewrite Hs in *. cbn [append] in *.
    rewrite parseInt10_negative by exact Hc. rewrite Hv.
    f_equal. exact (DecimalZ.of_to (Z.neg p)).
Qed.

Lemma append_empty (s : string) : (s ++ EmptyString)%string = s.
Proof. induction s as [|c s IH]; simpl; [reflexivity | rewrite IH; reflexivity]. Qed.

Lemma parseInt10_show_number_exact (n : Z) :
  parseInt10 (show_number n) = Some n.
Proof.
  rewrite <- (append_empty (show_number n)).
  apply parseInt10_decimal_prefix. reflexivity.
Qed.

(** What mapping the result of a computation does to its run. *)
Lemma run_bind_ret {A B} (m : Restore.Async A) (f : A -> B) :
  Restore.run (Restore.bind m (fun a => Restore.ret (f a)))
  = match Restore.run m with
    | (Resolved a, tr) => (Resolved (f a), tr)
    | (Rejected e, tr) => (Rejected e, tr)
    end.
Proof.
  unfold Restore.run, Restore.bind, Restore.ret.
  destruct (m []) as [[a|e] tr]; reflexivity.
Qed.

Lemma run_getMessageCount (c : Restore.OpenCodeSessionClient) (s : string) :
  Restore.run (Plugin.getMessageCount c s)
  = (Resolved match Restore.messages c s with
              | Resolved msgs => Z.of_nat (List.length msgs)
              | Rejected _ => 0
              end,
     [Restore.MessagesCall s (Restore.messages c s)]).
Proof.
  unfold Restore.run, Plugin.getMessageCount, Restore.try_catch,
    Restore.bind, Restore.await_messages, Restore.ret.
  destruct (Restore.messages c s); reflexivity.
Qed.

(** In a store from which a session's checkpoints were deleted,
    [restore] for that session fails before any collaborator call. *)
Lemma restore_in_emptied_session
    (db : Database.CheckpointDatabase)
    (c : Restore.OpenCodeSessionClient) (s : string) (id : Z) :
  exists name reason,
    Restore.run
      (Restore.restore (snd (Database.deleteSessionCheckpoints s db)) c s id)
    = (Resolved (Restore.failed id name 0 reason), []).
Proof.
  set (db' := snd (Database.deleteSessionCheckpoints s db)).
  destruct (Database.getCheckpoint db' id) as [cp|] eqn:Hget.
  - assert (Hne : Checkpoint.sessionId cp <> s).
    { apply getCheckpoint_Some in Hget. destruct Hget as [Hin _].
      unfold db' in Hin. simpl in Hin. apply filter_In in Hin.
      destruct Hin as [_ Hb]. apply negb_true_iff in Hb.
      apply String.eqb_neq. exact Hb. }
    rewrite (restore_foreign db' c s id cp Hget Hne).
    eexists. eexists. reflexivity.
  - rewrite (restore_not_found db' c s id Hget).
    eexists. eexists. reflexivity.
Qed.

(** X19.  Given the decimal text of an integer below 2^53 in
    magnitude, followed by anything that does not begin with a digit,
    [checkpoint_restore] does what [restore] does for that id: it makes
    the same calls on the session client, and answers with the response
    text of [restore]'s result.  The trailing text is ignored and no
    checkpoint is looked up by name. *)
Theorem checkpoint_restore_by_number
    (db : Database.CheckpointDatabase)
    (c : Restore.OpenCodeSessionClient)
    (n : Z) (rest sessionID : string) :
  - 9007199254740992 < n < 9007199254740992 ->
  starts_with_digit rest = false ->
  Restore.run
    (Plugin.checkpoint_restore db c (show_number n ++ rest) sessionID)
  = match Restore.run (Restore.restore db c sessionID n) with
    | (Resolved result, calls) =>
        (Resolved (Plugin.restore_response result), calls)
    | (Rejected e, calls) => (Rejected e, calls)
    end.
Proof.
  intros _ Hrest. unfold Plugin.checkpoint_restore.
  rewrite run_bind_ret, (parseInt10_decimal_prefix n rest Hrest).
  reflexivity.
Qed.

Lemma checkpoint_restore_by_number_witness :
  Restore.run
    (Plugin.checkpoint_restore Sample.store (Sample.client 50)
       "3 (the big one)" "s2")
  = (Resolved
       "Restore failed: Current session has 50 messages, checkpoint expects 100",
     [Restore.MessagesCall "s2" (Resolved (Sample.numbered 0 50))]).
Proof.
  assert (Hsafe : - 9007199254740992 < 3 < 9007199254740992) by lia.
  exact (checkpoint_restore_by_number Sample.store (Sample.client 50)
           3 " (the big one)" "s2" Hsafe eq_refl).
Defined.

(** X20.  [getMessageCount] never fails and is never negative: it makes
    exactly one message fetch and returns the number of messages
    fetched, or 0 when the fetch fails, so a failed fetch cannot be told
    from an empty session. *)
Theorem getMessageCount_total
    (c : Restore.OpenCodeSessionClient) (sessionId : string) :
  exists n,
    Restore.run (Plugin.getMessageCount c sessionId)
    = (Resolved n,
       [Restore.MessagesCall sessionId (Restore.messages c sessionId)])
    /\ 0 <= n
    /\ (forall msgs, Restore.messages c sessionId = Resolved msgs ->
                     n = Z.of_nat (List.length msgs))
    /\ (forall e, Restore.messages c sessionId = Rejected e -> n = 0).
Proof.
  rewrite run_getMessageCount.
  destruct (Restore.messages c sessionId) as [msgs|e].
  - exists (Z.of_nat (List.length msgs)). repeat split; try lia.
    + intros msgs' [= <-]. reflexivity.
    + intros e Habs. discriminate.
  - exists 0. repeat split; try lia.
    intros msgs Habs. discriminate.
Qed.

(** X21.  A reference that begins with a digit is taken as an id, also
    when a checkpoint of that very name exists: when the leading digits
    spell a number below 2^53 and no checkpoint has that id,
    [checkpoint_restore] answers "Restore failed: Checkpoint <id> not
    found" without calling the session client. *)
Theorem checkpoint_restore_leading_digit_is_an_id
    (db : Database.CheckpointDatabase)
    (c : Restore.OpenCodeSessionClient)
    (d : ascii) (rest sessionID : string) :
  is_digit d = true ->
  digits_value 0 (String d rest) < 9007199254740992 ->
  (forall r, In r (Database.rows db) ->
             Checkpoint.id r <> digits_value 0 (String d rest)) ->
  Restore.run (Plugin.checkpoint_restore db c (String d rest) sessionID)
  = (Resolved ("Restore failed: Checkpoint "
                 ++ show_number (digits_value 0 (String d rest))
                 ++ " not found")%string, []).
Proof.
  intros Hd _ Hnone. unfold Plugin.checkpoint_restore.
  rewrite run_bind_ret, (parseInt10_unsigned d rest Hd).
  rewrite (restore_not_found db c sessionID _
             (getCheckpoint_None db _ Hnone)).
  reflexivity.
Qed.

Lemma checkpoint_restore_leading_digit_is_an_id_witness :
  Restore.run
    (Plugin.checkpoint_restore
       (Sample.create (Sample.checkpoint "s1" "7 days ago" 3) 1700000000000
          Database.empty)
       (Sample.client 5) "7 days ago" "s1")
  = (Resolved "Restore failed: Checkpoint 7 not found", []).
Proof.
  apply (checkpoint_restore_leading_digit_is_an_id
           (Sample.create (Sample.checkpoint "s1" "7 days ago" 3)
              1700000000000 Database.empty)
           (Sample.client 5) "7" " days ago" "s1").
  - reflexivity.
  - reflexivity.
  - simpl. intros r [<-|[]]. simpl. discriminate.
Defined.

(** X22.  [checkpoint_delete] is not scoped to a session: given the
    decimal text of the id of any stored checkpoint, whatever follows
    the number, it deletes that checkpoint and answers "Checkpoint <id>
    deleted". *)
Theorem checkpoint_delete_by_printed_id
    (db : Database.CheckpointDatabase) (id : Z) (rest : string)
    (checkpoint : Checkpoint.t) :
  starts_with_digit rest = false ->
  Database.getCheckpoint db id = Some checkpoint ->
  let deleted := Plugin.checkpoint_delete (show_number id ++ rest) db in
  fst deleted = ("Checkpoint " ++ show_number id ++ " deleted")%string
  /\ Database.getCheckpoint (snd deleted) id = None
  /\ forall other, other <> id ->
       Database.getCheckpoint (snd deleted) other
       = Database.getCheckpoint db other.
Proof.
  intros Hrest Hget. unfold Plugin.checkpoint_delete.
  rewrite (parseInt10_decimal_prefix id rest Hrest).
  assert (Hgone : fst (Database.deleteCheckpoint id db) = true).
  { simpl. unfold Database.getCheckpoint in Hget.
    destruct (filter (fun r => Checkpoint.id r =? id) (Database.rows db))
      eqn:E.
    - apply find_none_filter_nil in E. congruence.
    - simpl. apply Z.ltb_lt. lia. }
  rewrite Hgone. simpl. split; [reflexivity|]. split.
  - unfold Database.getCheckpoint. simpl.
    apply find_none_filter_nil, filter_all_false.
    intros r Hr. apply filter_In in Hr. destruct Hr as [_ Hr].
    apply negb_true_iff in Hr. exact Hr.
  - intros other Hne. unfold Database.getCheckpoint. simpl.
    apply find_filter_other. exact Hne.
Qed.

Lemma checkpoint_delete_by_printed_id_witness :
  fst (Plugin.checkpoint_delete "3 please" Sample.store)
  = "Checkpoint 3 deleted"
  /\ Database.getCheckpoint
       (snd (Plugin.checkpoint_delete "3 please" Sample.store)) 3 = None.
Proof.
  destruct (checkpoint_delete_by_printed_id Sample.store 3 " please"
              (Checkpoint.mk 3 "s2" "Other" None 100 None 1700000000003 "{}")
              eq_refl eq_refl) as [Htext [Hgone _]].
  split; [exact Htext | exact Hgone].
Defined.

(** X23.  After the [session.deleted] hook has run for a session with a
    non-empty id, [checkpoint_restore] in that session fails for every
    reference, id or name, without calling the session client. *)
Theorem checkpoint_restore_after_session_deleted
    (db : Database.CheckpointDatabase)
    (c : Restore.OpenCodeSessionClient)
    (sessionID reference : string) :
  sessionID <> EmptyString ->
  exists reason,
    Restore.run
      (Plugin.checkpoint_restore (Plugin.on_session_deleted sessionID db)
         c reference sessionID)
    = (Resolved ("Restore failed: " ++ reason)%string, []).
Proof.
  intros Hne. unfold Plugin.on_session_deleted.
  destruct sessionID as [|a s]; [contradiction|].
  set (sid := String a s).
  unfold Plugin.checkpoint_restore. rewrite run_bind_ret.
  destruct (parseInt10 reference) as [n|].
  - destruct (restore_in_emptied_session db c sid n) as [name [reason Hrun]].
    rewrite Hrun. exists reason. reflexivity.
  - unfold Restore.restoreByName.
    rewrite findCheckpointByName_None.
    + eexists. reflexivity.
    + simpl. intros r Hr Hs. apply filter_In in Hr. destruct Hr as [_ Hb].
      apply negb_true_iff, String.eqb_neq in Hb. contradiction.
Qed.

Lemma checkpoint_restore_after_session_deleted_witness :
  exists reason,
    Restore.run
      (Plugin.checkpoint_restore (Plugin.on_session_deleted "s1" Sample.store)
         (Sample.client 20) "A" "s1")
    = (Resolved ("Restore failed: " ++ reason)%string, []).
Proof.
  apply (checkpoint_restore_after_session_deleted Sample.store
           (Sample.client 20) "s1" "A").
  discriminate.
Defined.

Section CreateTool.
Context {J : Type}.
Variable JSON_stringify : J -> string.
Variable empty_object : J.
Variable metadata_object : string -> Z -> J.
Variable directory : string.

(** What [checkpoint_create] stores for a session client [c]. *)
Lemma run_checkpoint_create (c : Restore.OpenCodeSessionClient)
    (name : string) (description : option string) (sessionID : string)
    (gitCommit : option string) (timestamp now : Z)
    (db : Database.CheckpointDatabase) :
  Database.wf db ->
  exists response db' row,
    fst (Restore.run
           (Plugin.checkpoint_create JSON_stringify empty_object
              metadata_object directory c name description sessionID
              gitCommit timestamp now db))
    = Resolved (response, db')
    /\ Database.getCheckpoint db' (Database.sqlite_sequence db + 1)
       = Some row
    /\ Checkpoint.sessionId row = sessionID
    /\ Checkpoint.name row = name
    /\ Checkpoint.messageCount row
       = match Restore.messages c sessionID with
         | Resolved msgs => Z.of_nat (List.length msgs)
         | Rejected _ => 0
         end.
Proof.
  intros Hwf. unfold Plugin.checkpoint_create.
  set (k := match Restore.messages c sessionID with
            | Resolved msgs => Z.of_nat (List.length msgs)
            | Rejected _ => 0
            end).
  set (data := {| CheckpointCreate.sessionId := sessionID;
                  CheckpointCreate.name := name;
                  CheckpointCreate.description := description;
                  CheckpointCreate.messageCount := k;
                  CheckpointCreate.gitCommit := gitCommit;
                  CheckpointCreate.metadata :=
                    Some (metadata_object directory timestamp) |}).
  set (row := Database.new_row JSON_stringify empty_object data now
                (Database.sqlite_sequence db + 1)).
  set (db' := snd (Database.createCheckpoint JSON_stringify empty_object
                     data now db)).
  assert (Hrun : forall tr,
            Plugin.getMessageCount c sessionID tr
            = (Resolved k,
               (tr ++ [Restore.MessagesCall sessionID
                         (Restore.messages c sessionID)])%list)).
  { intros tr. unfold Plugin.getMessageCount, Restore.try_catch,
      Restore.bind, Restore.await_messages, Restore.ret, k.
    destruct (Restore.messages c sessionID); reflexivity. }
  unfold Restore.run, Restore.bind. rewrite Hrun.
  eexists. exists db', row. split; [reflexivity|].
  split; [|repeat split; reflexivity].
  assert (Hwf' : Database.wf db').
  { apply (wf_apply_write JSON_stringify empty_object
             (Database.WCreate data now) db Hwf). }
  destruct Hwf' as [Hnd _].
  change (Database.sqlite_sequence db + 1) with (Checkpoint.id row).
  apply getCheckpoint_In; [exact Hnd|].
  unfold db'. simpl. apply in_or_app. right. left. reflexivity.
Qed.

(** X24.  A checkpoint taken with [checkpoint_create] in a session that
    has messages, and restored by its printed id after the session has
    only grown, is forked at the message that was the last one when the
    checkpoint was taken. *)
Theorem checkpoint_create_then_checkpoint_restore
    (before after : Restore.OpenCodeSessionClient)
    (name : string) (description : option string) (sessionID : string)
    (gitCommit : option string) (timestamp now : Z)
    (db : Database.CheckpointDatabase)
    (taken later : list Message.t) (last : Message.t) :
  Database.wf db ->
  Restore.messages before sessionID = Resolved (taken ++ [last])%list ->
  Restore.messages after sessionID = Resolved (taken ++ [last] ++ later)%list ->
  exists response db',
    fst (Restore.run
           (Plugin.checkpoint_create JSON_stringify empty_object
              metadata_object directory before name description sessionID
              gitCommit timestamp now db))
    = Resolved (response, db')
    /\ Restore.fork_calls
         (snd (Restore.run
                 (Plugin.checkpoint_restore db' after
                    (show_number (Database.sqlite_sequence db + 1))
                    sessionID)))
       = [ {| SessionForkOptions.sessionId := sessionID;
              SessionForkOptions.messageId := Some (Message.id last);
              SessionForkOptions.title :=
                Some ("Restored: " ++ name)%string |} ].
Proof.
  intros Hwf Hbefore Hafter.
  destruct (run_checkpoint_create before name description sessionID
              gitCommit timestamp now db Hwf)
    as [response [db' [row [Hrun [Hget [Hs [Hn Hk]]]]]]].
  rewrite Hbefore in Hk.
  exists response, db'. split; [exact Hrun|].
  unfold Plugin.checkpoint_restore.
  rewrite run_bind_ret, parseInt10_show_number_exact.
  rewrite (restore_fetched db' after sessionID _ row _ Hget Hs Hafter).
  rewrite Hk, !length_app. simpl List.length.
  destruct (Z.ltb_spec (Z.of_nat (List.length taken
                                  + (1 + List.length later)))
              (Z.of_nat (List.length taken + 1))) as [Hlt|_]; [lia|].
  assert (Hidx : Restore.js_index (taken ++ [last] ++ later)%list
                   (Z.of_nat (List.length taken + 1) - 1) = Some last).
  { unfold Restore.js_index.
    destruct (Z.ltb_spec (Z.of_nat (List.length taken + 1) - 1) 0); [lia|].
    replace (Z.to_nat (Z.of_nat (List.length taken + 1) - 1))
      with (List.length taken) by lia.
    rewrite nth_error_app2 by lia. rewrite Nat.sub_diag. reflexivity. }
  rewrite Hidx. simpl. unfold fork_request. rewrite Hn.
  destruct (Restore.fork after _); reflexivity.
Qed.


End CreateTool.

Lemma checkpoint_create_then_checkpoint_restore_witness :
  exists response db',
    fst (Restore.run
           (Plugin.checkpoint_create Sample.stringify tt (fun _ _ => tt)
              "/work" (Sample.client 3) "B" None "s1" None
              1700000000004 1700000000005 Sample.store))
    = Resolved (response, db')
    /\ Restore.fork_calls
         (snd (Restore.run
                 (Plugin.checkpoint_restore db' (Sample.client 5)
                    (show_number (Database.sqlite_sequence Sample.store + 1))
                    "s1")))
       = [ SessionForkOptions.mk "s1" (Some "msg-2") (Some "Restored: B") ].
Proof.
  apply (checkpoint_create_then_checkpoint_restore Sample.stringify tt
           (fun _ _ => tt) "/work" (Sample.client 3) (Sample.client 5)
           "B" None "s1" None 1700000000004 1700000000005 Sample.store
           [Message.mk "msg-0" JsNull; Message.mk "msg-1" JsNull]
           [Message.mk "msg-3" JsNull; Message.mk "msg-4" JsNull]
           (Message.mk "msg-2" JsNull)).
  - split; simpl.
    + repeat constructor; simpl; intuition discriminate.
    + repeat constructor; simpl; lia.
  - reflexivity.
  - reflexivity.
Defined.


